(** * La Luna Resort API: a shallow embedding of the booking backend

    The development follows [src/main.py] and [src/schemas.py]:

    - calendar dates ([datetime.date]) and their ISO-8601 text;
    - [bson.ObjectId] and its 24-digit hexadecimal text;
    - the document store behind [database.db]: typed collections, the
      filter documents the handlers send, [find], [find_one], [insert_one];
    - handlers as programs over the store operations, run either to
      completion (one request at a time) or interleaved one store
      operation at a time (two requests in flight);
    - the handlers [create_room], [list_rooms], [check_availability],
      [create_booking], [list_bookings];
    - the properties of the booking engine. *)

From Stdlib Require Import ZArith NArith QArith List String Ascii Bool Lia.
From Stdlib Require Import ListSet.
Import ListNotations.

Local Open Scope string_scope.
Local Open Scope list_scope.
Local Open Scope Z_scope.

(* ================================================================== *)
(** ** Text of numbers *)

(** The character of one digit, in bases up to 16 (lower-case letters). *)
Definition digit_char (d : Z) : ascii :=
  if d <? 10 then ascii_of_N (48 + Z.to_N d) else ascii_of_N (87 + Z.to_N d).

(** The [w] low-order digits of [n] in base [base], most significant first,
    padded with zeros on the left: Python's ["%0wd" % n] for
    [0 <= n < 10 ^ w], and [binascii.hexlify] of [w / 2] bytes in base 16. *)
Fixpoint digits (base : Z) (w : nat) (n : Z) : string :=
  match w with
  | O => EmptyString
  | S w' => String.append (digits base w' (n / base))
                          (String (digit_char (n mod base)) EmptyString)
  end.

(* ================================================================== *)
(** ** [datetime.date] *)

Definition is_leap (y : Z) : bool :=
  (y mod 4 =? 0) && (negb (y mod 100 =? 0) || (y mod 400 =? 0)).

Definition days_in_month (y m : Z) : Z :=
  if m =? 2 then (if is_leap y then 29 else 28)
  else if (m =? 4) || (m =? 6) || (m =? 9) || (m =? 11) then 30
  else 31.

(** What the constructor of [date] checks: [MINYEAR = 1], [MAXYEAR = 9999]. *)
Definition date_ok (y m d : Z) : bool :=
  (1 <=? y) && (y <=? 9999) && (1 <=? m) && (m <=? 12)
  && (1 <=? d) && (d <=? days_in_month y m).

(** A calendar date: day granularity, no time of day, no time zone. *)
Record date : Type := mkdate {
  year : Z;
  month : Z;
  day : Z;
  date_valid : date_ok year month day = true
}.

(** Dates compare as the tuples [(year, month, day)]. *)
Definition date_compare (a b : date) : comparison :=
  match year a ?= year b with
  | Eq => match month a ?= month b with
          | Eq => day a ?= day b
          | c => c
          end
  | c => c
  end.

Definition date_ltb (a b : date) : bool :=
  match date_compare a b with Lt => true | _ => false end.

Definition date_leb (a b : date) : bool :=
  match date_compare a b with Gt => false | _ => true end.

(** [date.toordinal()]: the number of the day, 0001-01-01 being day 1. *)
Definition days_before_year (y : Z) : Z :=
  let y' := y - 1 in y' * 365 + y' / 4 - y' / 100 + y' / 400.

Definition days_before_month (y m : Z) : Z :=
  match m with
  | 1 => 0 | 2 => 31 | 3 => 59 | 4 => 90 | 5 => 120 | 6 => 151
  | 7 => 181 | 8 => 212 | 9 => 243 | 10 => 273 | 11 => 304 | _ => 334
  end + (if (2 <? m) && is_leap y then 1 else 0).

Definition toordinal (d : date) : Z :=
  days_before_year (year d) + days_before_month (year d) (month d) + day d.

(** [date.isoformat()]: ["%04d-%02d-%02d" % (year, month, day)]. *)
Definition isoformat (d : date) : string :=
  (digits 10 4 (year d) ++ "-" ++ digits 10 2 (month d) ++ "-" ++ digits 10 2 (day d))%string.

(* ================================================================== *)
(** ** [bson.ObjectId] *)

(** Twelve bytes, held as the number they spell in base 256. An identity
    of fewer bytes, which only [ObjectId] of a text with blanks makes, is
    the number its bytes spell with the count of its missing bytes above
    the 96 bits: it is the identity of no document the store has named. *)
Record ObjectId : Type := { binary : Z }.

Definition ObjectId_eqb (a b : ObjectId) : bool := binary a =? binary b.

(** One hexadecimal digit, in either case, as [bytes.fromhex] reads it. *)
Definition hex_value (c : ascii) : option Z :=
  let n := Z.of_N (N_of_ascii c) in
  if (48 <=? n) && (n <=? 57) then Some (n - 48)
  else if (97 <=? n) && (n <=? 102) then Some (n - 87)
  else if (65 <=? n) && (n <=? 70) then Some (n - 55)
  else None.

(** ASCII whitespace: space, tab, line feed, vertical tab, form feed and
    carriage return. *)
Definition is_space (c : ascii) : bool :=
  let n := Z.of_N (N_of_ascii c) in
  (n =? 32) || ((9 <=? n) && (n <=? 13)).

(** [bytes.fromhex]: whitespace is skipped, then two hexadecimal digits,
    one right after the other, make a byte. The answer is the count of the
    bytes and the number they spell, or [None] for [ValueError]. *)
Fixpoint fromhex (s : string) (count : nat) (acc : Z) : option (nat * Z) :=
  match s with
  | EmptyString => Some (count, acc)
  | String c s' =>
      if is_space c then fromhex s' count acc
      else
        match hex_value c, s' with
        | Some top, String c' s'' =>
            match hex_value c' with
            | Some bot => fromhex s'' (S count) (256 * acc + (16 * top + bot))
            | None => None
            end
        | _, _ => None
        end
  end.

(** [ObjectId(oid)] for a [str]: a text of 24 characters that
    [bytes.fromhex] reads, or [InvalidId] (here [None]). Twenty-four
    hexadecimal digits give twelve bytes; a text with blanks gives fewer. *)
Definition ObjectId_of_str (oid : string) : option ObjectId :=
  if Nat.eqb (String.length oid) 24
  then match fromhex oid 0 0 with
       | Some (count, value) =>
           Some {| binary := value + 2 ^ 96 * Z.of_nat (12 - count) |}
       | None => None
       end
  else None.

(** The texts [bytes.fromhex] reads: bytes of two hexadecimal digits, with
    whitespace before, between and after them. *)
Inductive hex_pairs : string -> Prop :=
| hex_pairs_end : hex_pairs EmptyString
| hex_pairs_blank (c : ascii) (s : string) :
    is_space c = true -> hex_pairs s -> hex_pairs (String c s)
| hex_pairs_byte (c c' : ascii) (s : string) :
    hex_value c <> None -> hex_value c' <> None -> hex_pairs s ->
    hex_pairs (String c (String c' s)).

(** [str(oid)] for an identity of twelve bytes, as the store names its
    documents: the 24 lower-case hexadecimal digits. *)
Definition ObjectId_str (o : ObjectId) : string := digits 16 24 (binary o).

(* ================================================================== *)
(** ** Stored values and filter documents *)

Inductive Value : Type :=
| VNull
| VStr (s : string)
| VInt (n : Z)
| VDouble (x : Q)
| VOid (o : ObjectId)
| VArr (items : list string).

Definition as_number (v : Value) : option Q :=
  match v with
  | VInt n => Some (inject_Z n)
  | VDouble x => Some x
  | _ => None
  end.

Fixpoint strings_eqb (l m : list string) : bool :=
  match l, m with
  | [], [] => true
  | x :: l', y :: m' => String.eqb x y && strings_eqb l' m'
  | _, _ => false
  end.

Definition value_eqb (a b : Value) : bool :=
  match a, b with
  | VNull, VNull => true
  | VStr s, VStr t => String.eqb s t
  | VOid x, VOid y => ObjectId_eqb x y
  | VArr l, VArr m => strings_eqb l m
  | _, _ =>
      match as_number a, as_number b with
      | Some x, Some y => Qeq_bool x y
      | _, _ => false
      end
  end.

(** Order comparisons only relate values of one kind: text with text (by
    code point), numbers with numbers. *)
Definition value_ltb (a b : Value) : bool :=
  match a, b with
  | VStr s, VStr t => String.ltb s t
  | VOid x, VOid y => binary x <? binary y
  | _, _ =>
      match as_number a, as_number b with
      | Some x, Some y => match Qcompare x y with Lt => true | _ => false end
      | _, _ => false
      end
  end.

Definition value_leb (a b : Value) : bool := value_ltb a b || value_eqb a b.

(** The filter documents the handlers build. *)
#[warnings="-register-all"] Inductive Filter : Type :=
| f_eq (key : string) (v : Value)     (* {key: v} *)
| f_lt (key : string) (v : Value)     (* {key: {"$lt": v}} *)
| f_gt (key : string) (v : Value)     (* {key: {"$gt": v}} *)
| f_gte (key : string) (v : Value)    (* {key: {"$gte": v}} *)
| f_ne (key : string) (v : Value)     (* {key: {"$ne": v}} *)
| f_all (entries : list Filter)       (* the entries of one filter document *)
| f_or (branches : list Filter).      (* {"$or": [...]} *)

(** A document is a dictionary; an array field offers each of its items. *)
Definition Dict : Type := list (string * Value).

Fixpoint dict_get (d : Dict) (key : string) : option Value :=
  match d with
  | [] => None
  | (k, v) :: d' => if String.eqb k key then Some v else dict_get d' key
  end.

Definition candidates (field : option Value) : list Value :=
  match field with
  | None => []
  | Some (VArr items) => VArr items :: map VStr items
  | Some v => [v]
  end.

Definition holds_eq (field : option Value) (v : Value) : bool :=
  match field with
  | None => value_eqb VNull v
  | Some _ => existsb (fun x => value_eqb x v) (candidates field)
  end.

Fixpoint matches (q : Filter) (d : Dict) : bool :=
  match q with
  | f_eq key v => holds_eq (dict_get d key) v
  | f_lt key v => existsb (fun x => value_ltb x v) (candidates (dict_get d key))
  | f_gt key v => existsb (fun x => value_ltb v x) (candidates (dict_get d key))
  | f_gte key v => existsb (fun x => value_leb v x) (candidates (dict_get d key))
  | f_ne key v => negb (holds_eq (dict_get d key) v)
  | f_all entries => forallb (fun q' => matches q' d) entries
  | f_or branches => existsb (fun q' => matches q' d) branches
  end.

(* ================================================================== *)
(** ** schemas.py *)

(** What every schema offers the store: its dictionary. *)
Class BaseModel (A : Type) : Type := model_dump : A -> Dict.

Definition optional (s : option string) : Value :=
  match s with Some x => VStr x | None => VNull end.

(** Rooms collection schema (collection name: "room"). [price_per_night]
    is a number that the handlers only carry. *)
Record Room : Type := {
  name : string;
  room_type : string;
  description : option string;
  beds : Z;
  capacity : Z;
  price_per_night : Q;
  amenities : list string;
  images : list string
}.

(** The bounds of the [Field]s of [Room]. *)
Definition Room_fields_ok (r : Room) : bool :=
  (1 <=? beds r) && (beds r <=? 6) && (1 <=? capacity r) && (capacity r <=? 12)
  && Qle_bool 0 (price_per_night r).

(** Bookings collection schema (collection name: "booking"). *)
Record Booking : Type := {
  room_id : string;
  guest_name : string;
  email : string;
  phone : option string;
  check_in : date;
  check_out : date;
  guests : Z;
  special_requests : option string;
  status : string
}.

(** The bounds of the [Field]s of [Booking]: [guests] has [ge=1, le=12]. *)
Definition Booking_fields_ok (b : Booking) : bool :=
  (1 <=? guests b) && (guests b <=? 12).

#[export] Instance Room_model : BaseModel Room := fun r =>
  [ ("name", VStr (name r));
    ("room_type", VStr (room_type r));
    ("description", optional (description r));
    ("beds", VInt (beds r));
    ("capacity", VInt (capacity r));
    ("price_per_night", VDouble (price_per_night r));
    ("amenities", VArr (amenities r));
    ("images", VArr (images r)) ].

(** Dates are stored as their ISO-8601 text. *)
#[export] Instance Booking_model : BaseModel Booking := fun b =>
  [ ("room_id", VStr (room_id b));
    ("guest_name", VStr (guest_name b));
    ("email", VStr (email b));
    ("phone", optional (phone b));
    ("check_in", VStr (isoformat (check_in b)));
    ("check_out", VStr (isoformat (check_out b)));
    ("guests", VInt (guests b));
    ("special_requests", optional (special_requests b));
    ("status", VStr (status b)) ].

(* ================================================================== *)
(** ** The document store *)

(** A stored document: the dictionary of its schema value under the
    identity the store gave it. *)
Record Stored (A : Type) : Type := { _id : ObjectId; doc : A }.
Arguments _id {A} _.
Arguments doc {A} _.
Arguments Build_Stored {A} _ _.

Definition stored_dict {A : Type} `{BaseModel A} (d : Stored A) : Dict :=
  ("_id", VOid (_id d)) :: model_dump (doc d).

(** The collections the handlers name: [db["room"]] and [db["booking"]]. *)
Inductive collection : Type -> Type :=
| coll_room : collection Room
| coll_booking : collection Booking.

(** The store: both collections in insertion order, and the source of
    fresh identities. *)
Record Database : Type := {
  rooms : list (Stored Room);
  bookings : list (Stored Booking);
  next_oid : Z
}.

Definition documents {A : Type} (c : collection A) (db : Database) : list (Stored A) :=
  match c in collection T return list (Stored T) with
  | coll_room => rooms db
  | coll_booking => bookings db
  end.

Definition dict_of {A : Type} (c : collection A) : Stored A -> Dict :=
  match c in collection T return Stored T -> Dict with
  | coll_room => stored_dict
  | coll_booking => stored_dict
  end.

Definition find {A : Type} (c : collection A) (q : Filter) (db : Database)
  : list (Stored A) :=
  filter (fun d => matches q (dict_of c d)) (documents c db).

Definition find_one {A : Type} (c : collection A) (q : Filter) (db : Database)
  : option (Stored A) :=
  List.find (fun d => matches q (dict_of c d)) (documents c db).

Definition insert_one {A : Type} (c : collection A) (a : A) (db : Database)
  : ObjectId * Database :=
  let oid := {| binary := next_oid db |} in
  (oid,
   match c in collection T return T -> Database with
   | coll_room => fun r =>
       {| rooms := rooms db ++ [Build_Stored oid r];
          bookings := bookings db;
          next_oid := next_oid db + 1 |}
   | coll_booking => fun b =>
       {| rooms := rooms db;
          bookings := bookings db ++ [Build_Stored oid b];
          next_oid := next_oid db + 1 |}
   end a).

(* ================================================================== *)
(** ** Handlers as programs over the store *)

Record HTTPException : Type := { status_code : Z; detail : string }.

(** A handler: it returns, raises, or performs one store operation and
    goes on with its answer. *)
Inductive Prog (R : Type) : Type :=
| Return (r : R)
| Raise (e : HTTPException)
| Find {A : Type} (c : collection A) (q : Filter) (k : list (Stored A) -> Prog R)
| FindOne {A : Type} (c : collection A) (q : Filter) (k : option (Stored A) -> Prog R)
| InsertOne {A : Type} (c : collection A) (a : A) (k : ObjectId -> Prog R).
Arguments Return {R} _.
Arguments Raise {R} _.
Arguments Find {R A} _ _ _.
Arguments FindOne {R A} _ _ _.
Arguments InsertOne {R A} _ _ _.

Fixpoint bind {R S : Type} (p : Prog R) (f : R -> Prog S) : Prog S :=
  match p with
  | Return r => f r
  | Raise e => Raise e
  | Find c q k => Find c q (fun docs => bind (k docs) f)
  | FindOne c q k => FindOne c q (fun d => bind (k d) f)
  | InsertOne c a k => InsertOne c a (fun oid => bind (k oid) f)
  end.

Declare Scope prog_scope.
Delimit Scope prog_scope with prog.
Notation "x <- p ;; q" := (bind p (fun x => q))
  (at level 100, p at next level, right associativity) : prog_scope.
Local Open Scope prog_scope.

Inductive Outcome (R : Type) : Type :=
| Ok (r : R)
| Failed (e : HTTPException).
Arguments Ok {R} _.
Arguments Failed {R} _.

(** One request served alone, from its first store operation to its last. *)
Fixpoint run {R : Type} (p : Prog R) (db : Database) : Outcome R * Database :=
  match p with
  | Return r => (Ok r, db)
  | Raise e => (Failed e, db)
  | Find c q k => run (k (find c q db)) db
  | FindOne c q k => run (k (find_one c q db)) db
  | InsertOne c a k => let (oid, db') := insert_one c a db in run (k oid) db'
  end.

(** One store operation of a request in flight. *)
Definition step {R : Type} (p : Prog R) (db : Database) : Prog R * Database :=
  match p with
  | Return r => (Return r, db)
  | Raise e => (Raise e, db)
  | Find c q k => (k (find c q db), db)
  | FindOne c q k => (k (find_one c q db), db)
  | InsertOne c a k => let (oid, db') := insert_one c a db in (k oid, db')
  end.

(** Two requests in flight. The schedule says whose store operation comes
    next: [true] for the first request, [false] for the second. *)
Fixpoint interleave {R : Type} (schedule : list bool) (p1 p2 : Prog R) (db : Database)
  : Prog R * Prog R * Database :=
  match schedule with
  | [] => (p1, p2, db)
  | true :: schedule' =>
      let (p1', db') := step p1 db in interleave schedule' p1' p2 db'
  | false :: schedule' =>
      let (p2', db') := step p2 db in interleave schedule' p1 p2' db'
  end.

(** The first [n] store operations of a request. *)
Fixpoint steps {R : Type} (n : nat) (p : Prog R) (db : Database) : Prog R * Database :=
  match n with
  | O => (p, db)
  | S n' => let (p', db') := step p db in steps n' p' db'
  end.

(** A request that is over, by its outcome. *)
Definition finished {R : Type} (o : Outcome R) : Prog R :=
  match o with
  | Ok r => Return r
  | Failed e => Raise e
  end.

(** The programs that never insert. *)
Inductive read_only {R : Type} : Prog R -> Prop :=
| ro_return r : read_only (Return r)
| ro_raise e : read_only (Raise e)
| ro_find A (c : collection A) q k :
    (forall docs, read_only (k docs)) -> read_only (Find c q k)
| ro_find_one A (c : collection A) q k :
    (forall d, read_only (k d)) -> read_only (FindOne c q k).

(* ================================================================== *)
(** ** database.py *)

(** Modelled from the spec: [create_document] of [database.py], which is
    not among the sources. The spec has the store offer
    [insert_one(collection, doc) -> id], dates stored as ISO-8601 text;
    the handlers use the answer as the text of the new identity. *)
Definition create_document {A : Type} (c : collection A) (data : A) : Prog string :=
  InsertOne c data (fun oid => Return (ObjectId_str oid)).

(** Modelled from the spec: [get_documents] of [database.py], which is not
    among the sources. The spec has the store offer
    [find(collection, filter) -> sequence of doc]; an absent filter selects
    every document. *)
Definition get_documents {A : Type} (c : collection A) (filter_dict : option Filter)
  : Prog (list (Stored A)) :=
  Find c (match filter_dict with Some q => q | None => f_all [] end) Return.

(* ================================================================== *)
(** ** main.py *)

(** The failures the handlers raise, under the names the spec gives them. *)
Definition InvalidId : HTTPException :=
  {| status_code := 400; detail := "Invalid ID format" |}.
Definition InvalidRange : HTTPException :=
  {| status_code := 400; detail := "Check-out must be after check-in" |}.
Definition NotFound : HTTPException :=
  {| status_code := 404; detail := "Room not found" |}.
Definition Conflict : HTTPException :=
  {| status_code := 409; detail := "Room not available for selected dates" |}.

(** [RoomOut] and [BookingOut]: the schema value with [id: str]. *)
Record Out (A : Type) : Type := { id : string; fields : A }.
Arguments id {A} _.
Arguments fields {A} _.
Arguments Build_Out {A} _ _.

Definition RoomOut : Type := Out Room.
Definition BookingOut : Type := Out Booking.

(** [d["id"] = str(d.pop("_id"))] and then the [RoomOut] or [BookingOut]
    made of [d], on the handler's own copy of the document. *)
Definition to_out {A : Type} (d : Stored A) : Out A :=
  {| id := ObjectId_str (_id d); fields := doc d |}.

Definition _to_id (id_str : string) : Prog ObjectId :=
  match ObjectId_of_str id_str with
  | Some oid => Return oid
  | None => Raise InvalidId
  end.

(* Rooms *)

Definition create_room (room : Room) : Prog string :=
  room_id <- create_document coll_room room ;;
  Return room_id.

Definition list_rooms : Prog (list RoomOut) :=
  docs <- get_documents coll_room None ;;
  Return (map to_out docs).

(* Availability *)

Module AvailabilityRequest.
Record t : Type := { check_in : date; check_out : date; guests : Z }.
End AvailabilityRequest.

(** The loop over the candidate rooms. *)
Fixpoint collect_available (booked_ids : set string) (candidate_rooms : list (Stored Room))
  : list RoomOut :=
  match candidate_rooms with
  | [] => []
  | r :: rest =>
      let rid := ObjectId_str (_id r) in
      if set_mem string_dec rid booked_ids
      then collect_available booked_ids rest
      else {| id := rid; fields := doc r |} :: collect_available booked_ids rest
  end.

Definition check_availability (payload : AvailabilityRequest.t) : Prog (list RoomOut) :=
  if date_leb (AvailabilityRequest.check_out payload) (AvailabilityRequest.check_in payload)
  then Raise InvalidRange
  else
    (* Find rooms that fit capacity *)
    candidate_rooms <-
      get_documents coll_room
        (Some (f_gte "capacity" (VInt (AvailabilityRequest.guests payload)))) ;;
    (* Get bookings that overlap the requested date range *)
    overlapping <-
      Find coll_booking
        (f_all
           [ f_or
               [ f_all
                   [ f_lt "check_in"
                       (VStr (isoformat (AvailabilityRequest.check_out payload)));
                     f_gt "check_out"
                       (VStr (isoformat (AvailabilityRequest.check_in payload))) ] ];
             f_ne "status" (VStr "cancelled") ])
        Return ;;
    let booked_ids :=
      fold_left (fun ids b => set_add string_dec (room_id (doc b)) ids)
                overlapping (empty_set string) in
    Return (collect_available booked_ids candidate_rooms).

(* Bookings *)

Definition create_booking (booking : Booking) : Prog string :=
  (* Validate room exists *)
  room_oid <- _to_id (room_id booking) ;;
  room <- FindOne coll_room (f_eq "_id" (VOid room_oid)) Return ;;
  match room with
  | None => Raise NotFound
  | Some _ =>
      (* Check overlapping *)
      overlap <-
        FindOne coll_booking
          (f_all
             [ f_eq "room_id" (VStr (room_id booking));
               f_or
                 [ f_all
                     [ f_lt "check_in" (VStr (isoformat (check_out booking)));
                       f_gt "check_out" (VStr (isoformat (check_in booking))) ] ];
               f_ne "status" (VStr "cancelled") ])
          Return ;;
      match overlap with
      | Some _ => Raise Conflict
      | None =>
          booking_id <- create_document coll_booking booking ;;
          Return booking_id
      end
  end.

(** Python's truth value of an optional string: [None] and the empty
    string are false. *)
Definition truthy (s : option string) : bool :=
  match s with
  | Some (String _ _) => true
  | _ => false
  end.

Definition list_bookings (email : option string) : Prog (list BookingOut) :=
  let filter_q :=
    if truthy email
    then match email with Some e => Some (f_eq "email" (VStr e)) | None => None end
    else None in
  docs <- get_documents coll_booking filter_q ;;
  Return (map to_out docs).

(* ================================================================== *)
(** ** The vocabulary of the specification *)

(** Two half-open intervals [[a_start, a_end)] and [[b_start, b_end)]
    overlap iff [a_start < b_end] and [b_start < a_end]. *)
Definition overlaps (a_start a_end b_start b_end : date) : bool :=
  date_ltb a_start b_end && date_ltb b_start a_end.

Definition cancelled (b : Booking) : bool := String.eqb (status b) "cancelled".

(** A stored booking blocks an interval on a room: it is on that room, it
    is not cancelled, and its interval overlaps. *)
Definition blocks (room : string) (start stop : date) (b : Booking) : bool :=
  String.eqb (room_id b) room
  && negb (cancelled b)
  && overlaps (check_in b) (check_out b) start stop.

(** [has_conflict(room_id, interval)]: some non-cancelled booking of the
    room overlaps the interval. *)
Definition has_conflict (ledger : list (Stored Booking)) (room : string) (start stop : date)
  : bool :=
  existsb (fun b => blocks room start stop (doc b)) ledger.

(** [find_available(interval, min_guests)]: the rooms of enough capacity
    that have no conflict, each checked on its own. *)
Definition find_available (db : Database) (start stop : date) (min_guests : Z)
  : list (Stored Room) :=
  filter (fun r => (min_guests <=? capacity (doc r))
                   && negb (has_conflict (bookings db) (ObjectId_str (_id r)) start stop))
         (rooms db).

(** Two bookings that may not both stand: same room id, neither cancelled,
    overlapping intervals. *)
Definition double_booked (x y : Booking) : bool :=
  blocks (room_id y) (check_in y) (check_out y) x && negb (cancelled y).

(** The invariant of the ledger: no two of its bookings are double booked. *)
Definition no_double_booking (ledger : list (Stored Booking)) : Prop :=
  ForallOrdPairs (fun x y => double_booked (doc x) (doc y) = false) ledger.

(** Two bookings of one room: their room ids spell one identity. *)
Definition same_room (x y : Booking) : Prop :=
  exists oid, ObjectId_of_str (room_id x) = Some oid
              /\ ObjectId_of_str (room_id y) = Some oid.

(** The room a booking request names is in the catalog. *)
Definition room_exists (db : Database) (room : string) : Prop :=
  exists oid r, ObjectId_of_str room = Some oid /\ In r (rooms db) /\ _id r = oid.

(** Booking requests served one after the other, every one with success. *)
Inductive booked_in_sequence : Database -> list Booking -> Database -> Prop :=
| booked_none db : booked_in_sequence db [] db
| booked_next db booking booking_id db' rest db'' :
    run (create_booking booking) db = (Ok booking_id, db') ->
    booked_in_sequence db' rest db'' ->
    booked_in_sequence db (booking :: rest) db''.

(* ================================================================== *)
(** ** The scenarios of the specification *)

Definition jun (d : Z) (ok : date_ok 2024 6 d = true) : date := mkdate 2024 6 d ok.

Definition jun01 : date := jun 1 eq_refl.
Definition jun03 : date := jun 3 eq_refl.
Definition jun05 : date := jun 5 eq_refl.
Definition jun07 : date := jun 7 eq_refl.
Definition jun08 : date := jun 8 eq_refl.

(** Room A, capacity 2. *)
Definition room_A : Room :=
  {| name := "Ocean Suite"; room_type := "Suite"; description := None;
     beds := 1; capacity := 2; price_per_night := 320 # 1;
     amenities := ["wifi"]; images := [] |}.

Definition empty_db : Database := {| rooms := []; bookings := []; next_oid := 1 |}.

(** The store once room A is in the catalog. *)
Definition db_A : Database := snd (run (create_room room_A) empty_db).

Definition id_A : string := "000000000000000000000001".

Definition request (room : string) (start stop : date) (n : Z) (st : string) : Booking :=
  {| room_id := room; guest_name := "Ada Guest"; email := "ada@example.com";
     phone := None; check_in := start; check_out := stop; guests := n;
     special_requests := None; status := st |}.

(** Scenario 1: room A for [2024-06-01, 2024-06-05). *)
Definition booking_1 : Booking := request id_A jun01 jun05 2 "confirmed".
(** The overlapping request for [2024-06-03, 2024-06-07). *)
Definition booking_1b : Booking := request id_A jun03 jun07 2 "confirmed".
(** Scenario 2: [2024-06-05, 2024-06-08), from the checkout day on. *)
Definition booking_2 : Booking := request id_A jun05 jun08 2 "confirmed".

Definition db_1 : Database := snd (run (create_booking booking_1) db_A).

(** Scenario 3: rooms for two guests over [2024-06-01, 2024-06-05). *)
Definition query_3 : AvailabilityRequest.t :=
  {| AvailabilityRequest.check_in := jun01;
     AvailabilityRequest.check_out := jun05;
     AvailabilityRequest.guests := 2 |}.

(** Scenario 4: the booking of scenario 1, cancelled. *)
Definition db_1_cancelled : Database :=
  snd (run (create_booking (request id_A jun01 jun05 2 "cancelled")) db_A).

(** Scenario 5: the request of scenario 1 sent twice at once; the store
    operations of the two requests alternate. *)
Definition alternating : list bool := [true; false; true; false; true; false].

Definition db_race : Database :=
  snd (interleave alternating (create_booking booking_1) (create_booking booking_1) db_A).

(** Scenario 6: a stay of no night, in and out on 2024-06-05. *)
Definition booking_6 : Booking := request id_A jun05 jun05 1 "confirmed".

Definition query_6 : AvailabilityRequest.t :=
  {| AvailabilityRequest.check_in := jun05;
     AvailabilityRequest.check_out := jun05;
     AvailabilityRequest.guests := 1 |}.

(** A catalog whose only room has a letter in the text of its identity,
    and the two spellings of that identity. *)
Definition db_B : Database :=
  snd (run (create_room room_A) {| rooms := []; bookings := []; next_oid := 10 |}).

Definition id_B : string := "00000000000000000000000a".
Definition id_B_upper : string := "00000000000000000000000A".

(** The nights of scenario 1 asked of that room under each spelling. *)
Definition booking_B : Booking := request id_B jun01 jun05 2 "confirmed".
Definition booking_B_upper : Booking := request id_B_upper jun01 jun05 2 "confirmed".

(** The store after the upper-case request alone, and after both requests
    one after the other. *)
Definition db_B_upper : Database := snd (run (create_booking booking_B_upper) db_B).

Definition db_B_twice : Database :=
  snd (run (create_booking booking_B_upper) (snd (run (create_booking booking_B) db_B))).

(* ================================================================== *)
(** ** More of the interface *)

(** Identities are twelve bytes. *)
Definition oid_ok (o : ObjectId) : Prop := 0 <= binary o < 2 ^ 96.

(** Some room of the catalog has this identity. *)
Definition room_known (db : Database) (oid : ObjectId) : bool :=
  existsb (fun r => ObjectId_eqb (_id r) oid) (rooms db).
(** Two rooms in the catalog. *)
Definition db_AA : Database := snd (run (create_room room_A) db_A).
(** The requests that reach the store. *)
Inductive Request : Type :=
| CreateRoom (room : Room)
| ListRooms
| CheckAvailability (payload : AvailabilityRequest.t)
| CreateBooking (booking : Booking)
| ListBookings (email : option string).

(** The store after a request is served, whatever it answered. *)
Definition serve (req : Request) (db : Database) : Database :=
  match req with
  | CreateRoom room => snd (run (create_room room) db)
  | ListRooms => snd (run list_rooms db)
  | CheckAvailability payload => snd (run (check_availability payload) db)
  | CreateBooking booking => snd (run (create_booking booking) db)
  | ListBookings email => snd (run (list_bookings email) db)
  end.

Fixpoint serve_all (reqs : list Request) (db : Database) : Database :=
  match reqs with
  | [] => db
  | req :: rest => serve_all rest (serve req db)
  end.

(** A narrower query of scenario 3: [2024-06-03, 2024-06-05), one guest. *)
Definition query_3_narrow : AvailabilityRequest.t :=
  {| AvailabilityRequest.check_in := jun03;
     AvailabilityRequest.check_out := jun05;
     AvailabilityRequest.guests := 1 |}.

(** Thirteen guests, one more than any room may hold. *)
Definition query_13_guests : AvailabilityRequest.t :=
  {| AvailabilityRequest.check_in := jun01;
     AvailabilityRequest.check_out := jun05;
     AvailabilityRequest.guests := 13 |}.
(** Two requests in flight whose answers differ in type. *)
Fixpoint race {R S : Type} (schedule : list bool) (p1 : Prog R) (p2 : Prog S)
  (db : Database) : Prog R * Prog S * Database :=
  match schedule with
  | [] => (p1, p2, db)
  | true :: schedule' => let (p1', db') := step p1 db in race schedule' p1' p2 db'
  | false :: schedule' => let (p2', db') := step p2 db in race schedule' p1 p2' db'
  end.

(** [create_booking] from its conflict check on (lines 128 to 140), and from
    its insert on (lines 139 and 140). *)
Definition insert_booking (booking : Booking) : Prog string :=
  (booking_id <- create_document coll_booking booking ;;
   Return booking_id)%prog.

Definition check_conflict (booking : Booking) : Prog string :=
  (overlap <-
     FindOne coll_booking
       (f_all
          [ f_eq "room_id" (VStr (room_id booking));
            f_or
              [ f_all
                  [ f_lt "check_in" (VStr (isoformat (check_out booking)));
                    f_gt "check_out" (VStr (isoformat (check_in booking))) ] ];
            f_ne "status" (VStr "cancelled") ])
       Return ;;
   match overlap with
   | Some _ => Raise Conflict
   | None => insert_booking booking
   end)%prog.

(** Some prefix of the schedule holds exactly two store operations of each
    request: both conflict checks are made before either insert. *)
Definition checks_come_first (schedule : list bool) : Prop :=
  exists before after,
    schedule = before ++ after
    /\ count_occ bool_dec before true = 2%nat
    /\ count_occ bool_dec before false = 2%nat.

(** The same, told along the schedule from the counts of the operations
    already made. *)
Fixpoint checks_first_from (schedule : list bool) (n1 n2 : nat) : bool :=
  ((n1 =? 2)%nat && (n2 =? 2)%nat)
  || match schedule with
     | [] => false
     | true :: schedule' => checks_first_from schedule' (S n1) n2
     | false :: schedule' => checks_first_from schedule' n1 (S n2)
     end.

(** Where two requests for one room stand: the store operations each has
    made, and whether its conflict check found the booking of the other. *)
Record Standing : Type := {
  ops1 : nat; ops2 : nat; refused1 : bool; refused2 : bool
}.

(** One store operation of one request. At its conflict check, the second
    of its operations, a request is refused exactly when the other has
    inserted its booking. *)
Definition advance (who : bool) (st : Standing) : Standing :=
  if who
  then {| ops1 := S (ops1 st); ops2 := ops2 st;
          refused1 := if (ops1 st =? 1)%nat
                      then (3 <=? ops2 st)%nat && negb (refused2 st)
                      else refused1 st;
          refused2 := refused2 st |}
  else {| ops1 := ops1 st; ops2 := S (ops2 st);
          refused1 := refused1 st;
          refused2 := if (ops2 st =? 1)%nat
                      then (3 <=? ops1 st)%nat && negb (refused1 st)
                      else refused2 st |}.

Fixpoint advance_all (schedule : list bool) (st : Standing) : Standing :=
  match schedule with
  | [] => st
  | who :: schedule' => advance_all schedule' (advance who st)
  end.

(** The program of a request after [n] store operations. *)
Definition after_ops (booking : Booking) (n : nat) (refused : bool) (p : Prog string)
  : Prop :=
  match n with
  | 0%nat => p = create_booking booking
  | 1%nat => p = check_conflict booking
  | 2%nat => if refused then p = Raise Conflict else p = insert_booking booking
  | _ => if refused then p = Raise Conflict else exists booking_id, p = Return booking_id
  end.

(** The bookings two requests have added, by where they stand. *)
Definition added_by (b1 b2 : Booking) (st : Standing) (added : list Booking) : Prop :=
  match (3 <=? ops1 st)%nat && negb (refused1 st),
        (3 <=? ops2 st)%nat && negb (refused2 st) with
  | false, false => added = []
  | true, false => added = [b1]
  | false, true => added = [b2]
  | true, true => added = [b1; b2] \/ added = [b2; b1]
  end.

(** Standings that can be reached: a request is refused only once the other
    has made its three operations without being refused. *)
Definition reachable (st : Standing) : Prop :=
  (refused1 st = true -> (2 <= ops1 st)%nat /\ (3 <= ops2 st)%nat /\ refused2 st = false)
  /\ (refused2 st = true -> (2 <= ops2 st)%nat /\ (3 <= ops1 st)%nat /\ refused1 st = false).

(** Both requests have made their conflict check and neither was refused. *)
Definition both_checked_free (st : Standing) : Prop :=
  (2 <= ops1 st)%nat /\ (2 <= ops2 st)%nat /\ refused1 st = false /\ refused2 st = false.

(** Two requests for one room in flight over [db], where they stand. *)
Definition in_flight (db : Database) (b1 b2 : Booking) (st : Standing)
  (p1 p2 : Prog string) (now : Database) : Prop :=
  reachable st
  /\ after_ops b1 (ops1 st) (refused1 st) p1
  /\ after_ops b2 (ops2 st) (refused2 st) p2
  /\ rooms now = rooms db
  /\ exists added, bookings now = bookings db ++ added
                   /\ added_by b1 b2 st (map doc added).

(** Two outcomes that agree up to the identity answered. *)
Definition same_verdict (o1 o2 : Outcome string) : Prop :=
  match o1, o2 with
  | Ok _, Ok _ => True
  | Failed e1, Failed e2 => e1 = e2
  | _, _ => False
  end.

(** A request in flight beside another: over, with the verdict it has when
    served alone on [db], or as far as the [n] store operations it had, the
    bookings of its room being those of [db]. *)
Definition on_track (booking : Booking) (db : Database) (n : nat)
  (p : Prog string) (now : Database) : Prop :=
  (exists o, p = finished o /\ same_verdict o (fst (run (create_booking booking) db)))
  \/ ((forall start stop,
         has_conflict (bookings now) (room_id booking) start stop
         = has_conflict (bookings db) (room_id booking) start stop)
      /\ ((n = 0%nat /\ p = create_booking booking)
          \/ (n = 1%nat /\ p = check_conflict booking
              /\ exists oid, ObjectId_of_str (room_id booking) = Some oid
                             /\ room_known db oid = true)
          \/ (n = 2%nat /\ p = insert_booking booking
              /\ exists booking_id, fst (run (create_booking booking) db) = Ok booking_id))).
(** A request for the second room of [db_AA], the nights of scenario 1. *)
Definition booking_other_room : Booking :=
  request "000000000000000000000002" jun01 jun05 2 "confirmed".

(** Python text, one code point after the other. *)
Definition text : Type := list Z.

Definition plain (s : string) : text :=
  map (fun c => Z.of_N (N_of_ascii c)) (list_ascii_of_string s).

Definition check_mark : text := [9989].           (* U+2705 *)
Definition cross_mark : text := [10060].          (* U+274C *)
Definition warning_sign : text := [9888; 65039].  (* U+26A0 U+FE0F *)

(** The dictionary [test_database] answers. *)
Record Report : Type := {
  backend : text;
  database : text;
  database_url : option text;
  database_name : option text;
  connection_status : text;
  collections : list text
}.

Definition set_database (v : text) (r : Report) : Report :=
  {| backend := backend r; database := v; database_url := database_url r;
     database_name := database_name r; connection_status := connection_status r;
     collections := collections r |}.

Definition set_database_url (v : text) (r : Report) : Report :=
  {| backend := backend r; database := database r; database_url := Some v;
     database_name := database_name r; connection_status := connection_status r;
     collections := collections r |}.

Definition set_database_name (v : text) (r : Report) : Report :=
  {| backend := backend r; database := database r; database_url := database_url r;
     database_name := Some v; connection_status := connection_status r;
     collections := collections r |}.

Definition set_connection_status (v : text) (r : Report) : Report :=
  {| backend := backend r; database := database r; database_url := database_url r;
     database_name := database_name r; connection_status := v;
     collections := collections r |}.

Definition set_collections (v : list text) (r : Report) : Report :=
  {| backend := backend r; database := database r; database_url := database_url r;
     database_name := database_name r; connection_status := connection_status r;
     collections := v |}.

(** [... if os.getenv(...) else ...]: an unset or empty variable is false. *)
Definition set_or_not (value : option text) : text :=
  match value with
  | Some (_ :: _) => check_mark ++ plain " Set"
  | _ => cross_mark ++ plain " Not Set"
  end.

(** [test_database]. [db] is [None] when [database.db] is, and otherwise
    what [db.list_collection_names()] does: the names, or the text of the
    exception it raises. [DATABASE_URL] and [DATABASE_NAME] are what
    [os.getenv] answers. Nothing else in the outer [try] can raise. *)
Definition test_database (db : option (list text + text))
  (DATABASE_URL DATABASE_NAME : option text) : Report :=
  let response :=
    {| backend := check_mark ++ plain " Running";
       database := cross_mark ++ plain " Not Available";
       database_url := None;
       database_name := None;
       connection_status := plain "Not Connected";
       collections := [] |} in
  match db with
  | Some listing =>
      let response := set_database (check_mark ++ plain " Available") response in
      let response := set_database_url (set_or_not DATABASE_URL) response in
      let response := set_database_name (set_or_not DATABASE_NAME) response in
      match listing with
      | inl names =>
          let response := set_collections (firstn 10 names) response in
          let response :=
            set_database (check_mark ++ plain " Connected & Working") response in
          set_connection_status (plain "Connected") response
      | inr e =>
          set_database (warning_sign ++ plain " Connected but Error: " ++ firstn 80 e)
                       response
      end
  | None =>
      set_database (warning_sign ++ plain " Available but not initialized") response
  end.

(* ================================================================== *)
(** ** Lemmas: text of numbers and dates *)

Lemma digit_char_code (d : Z) :
  0 <= d < 10 -> N_of_ascii (digit_char d) = (48 + Z.to_N d)%N.
Proof.
  intros H. unfold digit_char.
  destruct (d <? 10) eqn:E; [ | apply Z.ltb_ge in E; lia ].
  apply N_ascii_embedding. lia.
Qed.

Lemma digit_char_compare (a b : Z) :
  0 <= a < 10 -> 0 <= b < 10 ->
  Ascii.compare (digit_char a) (digit_char b) = (a ?= b).
Proof.
  intros Ha Hb. unfold Ascii.compare.
  rewrite !digit_char_code by assumption.
  destruct (Z.compare_spec a b) as [E | E | E].
  - subst. apply N.compare_refl.
  - apply N.compare_lt_iff. lia.
  - apply N.compare_gt_iff. lia.
Qed.

Lemma append_nil_r (s : string) : (s ++ EmptyString)%string = s.
Proof. induction s as [ | c s IH]; simpl; [ reflexivity | now rewrite IH ]. Qed.

Lemma append_assoc (s t u : string) : ((s ++ t) ++ u = s ++ (t ++ u))%string.
Proof. induction s as [ | c s IH]; simpl; [ reflexivity | now rewrite IH ]. Qed.

(** Two fixed-width decimal numerals, each followed by more text, compare
    as their numbers do, and as the rest when the numbers agree. *)
Lemma digits_compare (w : nat) :
  forall (a b : Z) (s t : string),
    0 <= a < 10 ^ Z.of_nat w -> 0 <= b < 10 ^ Z.of_nat w ->
    String.compare (digits 10 w a ++ s)%string (digits 10 w b ++ t)%string =
    match a ?= b with Eq => String.compare s t | c => c end.
Proof.
  induction w as [ | w IH]; intros a b s t Ha Hb.
  - simpl in *. assert (a = 0) by lia. assert (b = 0) by lia. subst. reflexivity.
  - rewrite Nat2Z.inj_succ, Z.pow_succ_r in Ha, Hb by lia.
    simpl digits. rewrite !append_assoc. simpl append.
    rewrite IH by (split; [ apply Z.div_pos; lia | apply Z.div_lt_upper_bound; lia ]).
    assert (Ma : 0 <= a mod 10 < 10) by (apply Z.mod_pos_bound; lia).
    assert (Mb : 0 <= b mod 10 < 10) by (apply Z.mod_pos_bound; lia).
    pose proof (Z.div_mod a 10 ltac:(lia)) as Da.
    pose proof (Z.div_mod b 10 ltac:(lia)) as Db.
    destruct (Z.compare_spec (a / 10) (b / 10)) as [E | E | E].
    + simpl String.compare. rewrite digit_char_compare by assumption.
      destruct (Z.compare_spec (a mod 10) (b mod 10)) as [F | F | F].
      * replace (a ?= b) with Eq by (symmetry; apply Z.compare_eq_iff; lia).
        reflexivity.
      * replace (a ?= b) with Lt by (symmetry; apply Z.compare_lt_iff; lia).
        reflexivity.
      * replace (a ?= b) with Gt by (symmetry; apply Z.compare_gt_iff; lia).
        reflexivity.
    + replace (a ?= b) with Lt by (symmetry; apply Z.compare_lt_iff; lia).
      reflexivity.
    + replace (a ?= b) with Gt by (symmetry; apply Z.compare_gt_iff; lia).
      reflexivity.
Qed.

Lemma date_bounds (d : date) :
  0 <= year d < 10 ^ 4 /\ 0 <= month d < 10 ^ 2 /\ 0 <= day d < 10 ^ 2.
Proof.
  destruct d as [y m d H]. simpl. unfold date_ok in H.
  repeat (apply andb_prop in H; destruct H as [H ?]).
  assert (days_in_month y m <= 31).
  { unfold days_in_month. repeat match goal with |- context [if ?c then _ else _] => destruct c end; lia. }
  lia.
Qed.

(** The ISO-8601 texts of two dates compare as the dates do. *)
Lemma isoformat_compare (a b : date) :
  String.compare (isoformat a) (isoformat b) = date_compare a b.
Proof.
  destruct (date_bounds a) as (Ya & Ma & Da), (date_bounds b) as (Yb & Mb & Db).
  unfold isoformat, date_compare.
  rewrite (digits_compare 4) by assumption.
  destruct (year a ?= year b); try reflexivity.
  cbn [append String.compare].
  change (Ascii.compare "-" "-") with Eq. cbv iota.
  rewrite (digits_compare 2) by assumption.
  destruct (month a ?= month b); try reflexivity.
  cbn [append String.compare].
  change (Ascii.compare "-" "-") with Eq. cbv iota.
  rewrite <- (append_nil_r (digits 10 2 (day a))), <- (append_nil_r (digits 10 2 (day b))).
  rewrite (digits_compare 2) by assumption.
  destruct (day a ?= day b); reflexivity.
Qed.

Lemma isoformat_ltb (a b : date) : String.ltb (isoformat a) (isoformat b) = date_ltb a b.
Proof. unfold String.ltb, date_ltb. now rewrite isoformat_compare. Qed.

(** *** Dates in order are days in order *)

Lemma next_year (y : Z) : days_before_year (y + 1) = days_before_year y + 365 + (if is_leap y then 1 else 0).
Proof.
  unfold days_before_year, is_leap. cbv zeta.
  replace (y + 1 - 1) with y by lia.
  destruct (Z.eqb_spec (y mod 4) 0), (Z.eqb_spec (y mod 100) 0), (Z.eqb_spec (y mod 400) 0);
    cbn [andb orb negb]; Z.div_mod_to_equations; lia.
Qed.

Lemma later_year (y1 y2 : Z) :
  y1 < y2 -> days_before_year y1 + 365 + (if is_leap y1 then 1 else 0) <= days_before_year y2.
Proof.
  intros H. rewrite <- next_year. unfold days_before_year. cbv zeta.
  replace (y1 + 1 - 1) with y1 by lia.
  assert (y1 / 4 <= (y2 - 1) / 4) by (apply Z.div_le_mono; lia).
  assert (y1 / 400 <= (y2 - 1) / 400) by (apply Z.div_le_mono; lia).
  Z.div_mod_to_equations. lia.
Qed.

Lemma date_facts (d : date) :
  1 <= year d <= 9999 /\ 1 <= month d <= 12 /\ 1 <= day d <= days_in_month (year d) (month d).
Proof.
  destruct d as [y m d H]. simpl. unfold date_ok in H.
  repeat (apply andb_prop in H; destruct H as [H ?]). lia.
Qed.

Ltac months m H :=
  assert (m = 1 \/ m = 2 \/ m = 3 \/ m = 4 \/ m = 5 \/ m = 6 \/ m = 7 \/ m = 8
          \/ m = 9 \/ m = 10 \/ m = 11 \/ m = 12) as H by lia;
  repeat destruct H as [H | H]; subst m.

Lemma day_of_year_bounds (y m d : Z) :
  1 <= m <= 12 -> 1 <= d <= days_in_month y m ->
  1 <= days_before_month y m + d <= 365 + (if is_leap y then 1 else 0).
Proof.
  intros Hm Hd. months m E;
  unfold days_before_month, days_in_month in *;
    cbn -[is_leap Z.add] in *; destruct (is_leap y); cbn -[Z.add] in *; lia.
Qed.

Lemma later_month (y m1 d1 m2 d2 : Z) :
  1 <= m1 -> m1 < m2 -> m2 <= 12 -> d1 <= days_in_month y m1 -> 1 <= d2 ->
  days_before_month y m1 + d1 < days_before_month y m2 + d2.
Proof.
  intros L1 L L2 Hd1 Hd2. months m1 E1; months m2 E2; try lia;
  unfold days_before_month, days_in_month in *;
    cbn -[is_leap Z.add] in *; destruct (is_leap y); cbn -[Z.add] in *; lia.
Qed.

Lemma toordinal_compare (a b : date) :
  (toordinal a ?= toordinal b) = date_compare a b.
Proof.
  destruct (date_facts a) as (Ya & Ma & Da), (date_facts b) as (Yb & Mb & Db).
  pose proof (day_of_year_bounds _ _ _ Ma Da) as Ba.
  pose proof (day_of_year_bounds _ _ _ Mb Db) as Bb.
  unfold date_compare, toordinal.
  destruct (Z.compare_spec (year a) (year b)) as [Ey | Ly | Ly].
  - rewrite Ey in *. destruct (Z.compare_spec (month a) (month b)) as [Em | Lm | Lm].
    + rewrite Em. destruct (Z.compare_spec (day a) (day b)).
      * apply Z.compare_eq_iff. lia.
      * apply Z.compare_lt_iff. lia.
      * apply Z.compare_gt_iff. lia.
    + apply Z.compare_lt_iff.
      pose proof (later_month (year b) (month a) (day a) (month b) (day b)). lia.
    + apply Z.compare_gt_iff.
      pose proof (later_month (year b) (month b) (day b) (month a) (day a)). lia.
  - apply Z.compare_lt_iff. pose proof (later_year _ _ Ly). lia.
  - apply Z.compare_gt_iff. pose proof (later_year _ _ Ly). lia.
Qed.

Lemma toordinal_ltb (a b : date) : date_ltb a b = true <-> toordinal a < toordinal b.
Proof.
  unfold date_ltb. rewrite <- toordinal_compare, <- Z.compare_lt_iff.
  destruct (toordinal a ?= toordinal b); split; congruence.
Qed.


(* ================================================================== *)
(** ** Lemmas: lists *)

Lemma find_existsb {A : Type} (p : A -> bool) (l : list A) :
  match List.find p l with Some _ => true | None => false end = existsb p l.
Proof.
  induction l as [ | x l IH]; simpl; [ reflexivity | ].
  destruct (p x); [ reflexivity | exact IH ].
Qed.

Lemma existsb_false_in {A : Type} (p : A -> bool) (l : list A) :
  existsb p l = false <-> forall x, In x l -> p x = false.
Proof.
  induction l as [ | y l IH]; simpl.
  - split; [ intros _ x [] | reflexivity ].
  - rewrite orb_false_iff, IH. split.
    + intros [Hy Hl] x [<- | Hx]; auto.
    + intros H. split; [ apply H; now left | intros x Hx; apply H; now right ].
Qed.

Lemma filter_filter {A : Type} (p q : A -> bool) (l : list A) :
  filter p (filter q l) = filter (fun x => q x && p x) l.
Proof.
  induction l as [ | x l IH]; simpl; [ reflexivity | ].
  destruct (q x); simpl; [ destruct (p x) | ]; now rewrite IH.
Qed.

Lemma ordered_pairs_snoc {A : Type} (R : A -> A -> Prop) (l : list A) (x : A) :
  ForallOrdPairs R l -> (forall e, In e l -> R e x) -> ForallOrdPairs R (l ++ [x]).
Proof.
  induction 1 as [ | a l Ha Hl IH]; intros Hx; simpl.
  - constructor; constructor.
  - constructor.
    + apply Forall_app. split; [ exact Ha | ].
      constructor; [ apply Hx; now left | constructor ].
    + apply IH. intros e He. apply Hx. now right.
Qed.

(* ================================================================== *)
(** ** Lemmas: what the filter documents select *)

Lemma booking_fields (b : Stored Booking) :
  dict_get (stored_dict b) "room_id" = Some (VStr (room_id (doc b)))
  /\ dict_get (stored_dict b) "check_in" = Some (VStr (isoformat (check_in (doc b))))
  /\ dict_get (stored_dict b) "check_out" = Some (VStr (isoformat (check_out (doc b))))
  /\ dict_get (stored_dict b) "status" = Some (VStr (status (doc b)))
  /\ dict_get (stored_dict b) "email" = Some (VStr (email (doc b))).
Proof. repeat split; reflexivity. Qed.

Lemma room_fields (r : Stored Room) :
  dict_get (stored_dict r) "_id" = Some (VOid (_id r))
  /\ dict_get (stored_dict r) "capacity" = Some (VInt (capacity (doc r))).
Proof. split; reflexivity. Qed.

Ltac booking_lookups b :=
  destruct (booking_fields b) as (Froom & Fin & Fout & Fstatus & Femail);
  cbn [matches forallb existsb];
  rewrite ?Froom, ?Fin, ?Fout, ?Fstatus, ?Femail;
  cbn [holds_eq candidates existsb value_eqb value_ltb];
  clear Froom Fin Fout Fstatus Femail.

Lemma leb_numbers (a b : Z) : value_leb (VInt a) (VInt b) = (a <=? b).
Proof.
  unfold value_leb, value_ltb, value_eqb. simpl as_number.
  unfold Qcompare, Qeq_bool, inject_Z. simpl Qnum. simpl Qden.
  rewrite !Z.mul_1_r.
  destruct (Z.compare_spec a b) as [E | E | E].
  - subst. rewrite Z.eqb_refl. symmetry. apply Z.leb_le. lia.
  - simpl. symmetry. apply Z.leb_le. lia.
  - simpl. replace (a =? b) with false by (symmetry; apply Z.eqb_neq; lia).
    symmetry. apply Z.leb_gt. lia.
Qed.

(** The filter of [create_booking] selects the bookings that block the
    requested interval on the requested room. *)
Lemma conflict_filter_blocks (room : string) (start stop : date) (e : Stored Booking) :
  matches
    (f_all
       [ f_eq "room_id" (VStr room);
         f_or [ f_all [ f_lt "check_in" (VStr (isoformat stop));
                        f_gt "check_out" (VStr (isoformat start)) ] ];
         f_ne "status" (VStr "cancelled") ])
    (stored_dict e)
  = blocks room start stop (doc e).
Proof.
  booking_lookups e. unfold blocks, cancelled, overlaps.
  rewrite !isoformat_ltb, !orb_false_r, !andb_true_r.
  destruct (String.eqb (room_id (doc e)) room); simpl; [ | reflexivity ].
  apply andb_comm.
Qed.

(** The filter of [check_availability] selects the bookings, of any room,
    that are not cancelled and overlap the requested interval. *)
Lemma overlap_filter_blocks (start stop : date) (e : Stored Booking) :
  matches
    (f_all
       [ f_or [ f_all [ f_lt "check_in" (VStr (isoformat stop));
                        f_gt "check_out" (VStr (isoformat start)) ] ];
         f_ne "status" (VStr "cancelled") ])
    (stored_dict e)
  = blocks (room_id (doc e)) start stop (doc e).
Proof.
  booking_lookups e. unfold blocks, cancelled, overlaps.
  rewrite !isoformat_ltb, !orb_false_r, !andb_true_r, String.eqb_refl. simpl.
  apply andb_comm.
Qed.

Lemma capacity_filter (n : Z) (r : Stored Room) :
  matches (f_gte "capacity" (VInt n)) (stored_dict r) = (n <=? capacity (doc r)).
Proof.
  destruct (room_fields r) as (_ & F). cbn [matches]. rewrite F.
  cbn [candidates existsb]. now rewrite leb_numbers, orb_false_r.
Qed.

Lemma id_filter (oid : ObjectId) (r : Stored Room) :
  matches (f_eq "_id" (VOid oid)) (stored_dict r) = ObjectId_eqb (_id r) oid.
Proof.
  destruct (room_fields r) as (F & _). cbn [matches]. rewrite F.
  cbn [holds_eq candidates existsb value_eqb]. apply orb_false_r.
Qed.

Lemma email_filter (e : string) (b : Stored Booking) :
  matches (f_eq "email" (VStr e)) (stored_dict b) = String.eqb (email (doc b)) e.
Proof. booking_lookups b. apply orb_false_r. Qed.

Create Rewrite HintDb store.
#[local] Hint Rewrite conflict_filter_blocks overlap_filter_blocks capacity_filter
  id_filter email_filter : store.

(* ================================================================== *)
(** ** Lemmas: serving a booking request *)

Lemma find_one_some {A : Type} (c : collection A) (q : Filter) (db : Database) :
  match find_one c q db with Some _ => true | None => false end
  = existsb (fun d => matches q (dict_of c d)) (documents c db).
Proof. apply find_existsb. Qed.

Section Serving.

Variable db : Database.
Variable booking : Booking.

(** Looking a room up by identity finds one when the catalog has it. *)
Lemma room_lookup (oid : ObjectId) (r : Stored Room) :
  In r (rooms db) -> _id r = oid ->
  exists r', find_one coll_room (f_eq "_id" (VOid oid)) db = Some r'.
Proof.
  intros Hin Hid.
  pose proof (find_one_some coll_room (f_eq "_id" (VOid oid)) db) as H.
  destruct (find_one coll_room (f_eq "_id" (VOid oid)) db) as [r' | ].
  - now exists r'.
  - symmetry in H. cbn [documents dict_of] in H.
    rewrite existsb_false_in in H. specialize (H r Hin).
    autorewrite with store in H. rewrite Hid in H. unfold ObjectId_eqb in H.
    now rewrite Z.eqb_refl in H.
Qed.

(** The conflict check of [create_booking] is [has_conflict]. *)
Lemma conflict_lookup :
  match
    find_one coll_booking
      (f_all
         [ f_eq "room_id" (VStr (room_id booking));
           f_or [ f_all [ f_lt "check_in" (VStr (isoformat (check_out booking)));
                          f_gt "check_out" (VStr (isoformat (check_in booking))) ] ];
           f_ne "status" (VStr "cancelled") ])
      db
  with Some _ => true | None => false end
  = has_conflict (bookings db) (room_id booking) (check_in booking) (check_out booking).
Proof.
  rewrite find_one_some. cbn [documents dict_of]. unfold has_conflict.
  induction (bookings db) as [ | e l IH]; [ reflexivity | ].
  cbn [existsb]. autorewrite with store. now rewrite IH.
Qed.

(** A request is refused and the store left as it was, or it is served:
    then nothing blocked it and its booking is the last of the ledger. *)
Lemma create_booking_cases :
  (exists e, run (create_booking booking) db = (Failed e, db))
  \/ (has_conflict (bookings db) (room_id booking) (check_in booking) (check_out booking)
      = false
      /\ run (create_booking booking) db
         = (Ok (ObjectId_str (fst (insert_one coll_booking booking db))),
            snd (insert_one coll_booking booking db))).
Proof.
  pose proof conflict_lookup as Hc.
  unfold create_booking, _to_id.
  destruct (ObjectId_of_str (room_id booking)) as [oid | ]; cbn [bind run];
    [ | left; now eexists ].
  destruct (find_one coll_room (f_eq "_id" (VOid oid)) db) as [r | ]; cbn [bind run];
    [ | left; now eexists ].
  match goal with
  | H : match ?f with Some _ => true | None => false end = _ |- _ =>
      destruct f as [e | ]
  end; cbn [bind run create_document].
  - left. now eexists.
  - right. split; [ now symmetry | reflexivity ].
Qed.

(** When the room exists the conflict check alone decides. *)
Lemma create_booking_run :
  room_exists db (room_id booking) ->
  run (create_booking booking) db =
  if has_conflict (bookings db) (room_id booking) (check_in booking) (check_out booking)
  then (Failed Conflict, db)
  else (Ok (ObjectId_str (fst (insert_one coll_booking booking db))),
        snd (insert_one coll_booking booking db)).
Proof.
  intros (oid & r & Hoid & Hin & Hid).
  pose proof conflict_lookup as Hc.
  destruct (room_lookup oid r Hin Hid) as (r' & Hr).
  unfold create_booking, _to_id. rewrite Hoid. cbn [bind run]. rewrite Hr. cbn [bind run].
  match goal with
  | H : match ?f with Some _ => true | None => false end = _ |- _ =>
      destruct f as [e | ]
  end; cbn [bind run create_document]; rewrite <- Hc; reflexivity.
Qed.

Lemma ledger_after_insert :
  bookings (snd (insert_one coll_booking booking db))
  = bookings db ++ [Build_Stored {| binary := next_oid db |} booking]
  /\ rooms (snd (insert_one coll_booking booking db)) = rooms db.
Proof. split; reflexivity. Qed.

Lemma no_conflict_no_double_booking (ledger : list (Stored Booking)) :
  has_conflict ledger (room_id booking) (check_in booking) (check_out booking) = false ->
  forall e, In e ledger -> double_booked (doc e) booking = false.
Proof.
  unfold has_conflict, double_booked. rewrite existsb_false_in.
  intros H e He. now rewrite (H e He).
Qed.

(** One served request keeps the ledger free of double bookings. *)
Lemma create_booking_keeps_invariant (o : Outcome string) (db' : Database) :
  run (create_booking booking) db = (o, db') ->
  no_double_booking (bookings db) -> no_double_booking (bookings db').
Proof.
  intros Hrun Hinv.
  replace db' with (snd (run (create_booking booking) db)) by now rewrite Hrun.
  destruct create_booking_cases as [(e & H) | (Hfree & H)];
    rewrite H; cbn [snd]; [ exact Hinv | ].
  rewrite (proj1 ledger_after_insert).
  apply ordered_pairs_snoc; [ exact Hinv | ].
  intros e He. cbn [doc]. now apply no_conflict_no_double_booking with (ledger := bookings db).
Qed.

End Serving.

Lemma blocks_iff (room : string) (start stop : date) (b : Booking) :
  blocks room start stop b = true <->
  room_id b = room /\ status b <> "cancelled"
  /\ date_ltb (check_in b) stop = true /\ date_ltb start (check_out b) = true.
Proof.
  unfold blocks, cancelled, overlaps.
  rewrite !andb_true_iff, negb_true_iff, String.eqb_eq, String.eqb_neq. tauto.
Qed.

Lemma has_conflict_iff (ledger : list (Stored Booking)) (room : string) (start stop : date) :
  has_conflict ledger room start stop = true <->
  exists e, In e ledger /\ room_id (doc e) = room /\ status (doc e) <> "cancelled"
            /\ overlaps (check_in (doc e)) (check_out (doc e)) start stop = true.
Proof.
  unfold has_conflict. rewrite existsb_exists.
  split; intros (e & He & H); exists e; (split; [ exact He | ]).
  - apply blocks_iff in H. unfold overlaps. rewrite andb_true_iff. tauto.
  - apply blocks_iff. unfold overlaps in H. rewrite andb_true_iff in H. tauto.
Qed.

(** *** The invariant, spelled out *)

Lemma overlaps_sym (a b c d : date) : overlaps a b c d = overlaps c d a b.
Proof. unfold overlaps. apply andb_comm. Qed.

Lemma double_booked_iff (x y : Booking) :
  double_booked x y = true <->
  room_id x = room_id y
  /\ status x <> "cancelled" /\ status y <> "cancelled"
  /\ overlaps (check_in x) (check_out x) (check_in y) (check_out y) = true.
Proof.
  unfold double_booked. rewrite andb_true_iff, blocks_iff.
  unfold cancelled, overlaps. rewrite negb_true_iff, String.eqb_neq, andb_true_iff. tauto.
Qed.

Lemma double_booked_sym (x y : Booking) : double_booked x y = double_booked y x.
Proof.
  unfold double_booked, blocks, cancelled.
  rewrite (overlaps_sym (check_in x)), (String.eqb_sym (room_id x)).
  destruct (String.eqb (room_id y) (room_id x)), (String.eqb (status x) "cancelled"),
    (String.eqb (status y) "cancelled"),
    (overlaps (check_in y) (check_out y) (check_in x) (check_out x)); reflexivity.
Qed.

(** The invariant, pair by pair: any two entries of the ledger at
    different places are not double booked. *)
Lemma no_double_booking_pairs (ledger : list (Stored Booking)) :
  no_double_booking ledger <->
  forall i j x y, i <> j -> nth_error ledger i = Some x -> nth_error ledger j = Some y ->
                  double_booked (doc x) (doc y) = false.
Proof.
  unfold no_double_booking. split.
  - induction 1 as [ | a l Ha _ IH]; intros i j x y Hij Hi Hj.
    + now destruct i.
    + rewrite Forall_forall in Ha.
      destruct i as [ | i], j as [ | j]; cbn [nth_error] in Hi, Hj.
      * now elim Hij.
      * injection Hi as <-. apply Ha. eapply nth_error_In, Hj.
      * injection Hj as <-. rewrite double_booked_sym. apply Ha. eapply nth_error_In, Hi.
      * apply (IH i j); [ congruence | assumption | assumption ].
  - induction ledger as [ | a l IH]; intros H; constructor.
    + apply Forall_forall. intros y Hy. apply In_nth_error in Hy. destruct Hy as [j Hj].
      apply (H O (S j)); [ discriminate | reflexivity | exact Hj ].
    + apply IH. intros i j x y Hij Hi Hj. apply (H (S i) (S j)); [ congruence | | ]; assumption.
Qed.

(* ================================================================== *)
(** ** The booking ledger *)

(** C1, as the code has it. Booking requests served one after the other,
    each with success, from a ledger in which no two non-cancelled bookings
    with the same [room_id] text have overlapping half-open intervals, leave
    a ledger that is still so. Bookings are compared by the text of their
    [room_id], as the conflict check compares them. *)
Theorem no_double_booking_preserved
  (db : Database) (requests : list Booking) (db' : Database) :
  no_double_booking (bookings db) ->
  booked_in_sequence db requests db' ->
  no_double_booking (bookings db').
Proof.
  intros Hinv Hseq. induction Hseq as [ db | db b booking_id db1 rest db2 Hrun _ IH ].
  - exact Hinv.
  - apply IH. exact (create_booking_keeps_invariant db b _ _ Hrun Hinv).
Qed.

(** Scenarios 1 and 2 in a row: both served, the ledger holds both. *)
Lemma no_double_booking_preserved_witness :
  booked_in_sequence db_A [booking_1; booking_2]
    (snd (run (create_booking booking_2) db_1))
  /\ List.length (bookings (snd (run (create_booking booking_2) db_1))) = 2%nat
  /\ no_double_booking (bookings (snd (run (create_booking booking_2) db_1))).
Proof.
  assert (S : booked_in_sequence db_A [booking_1; booking_2]
                (snd (run (create_booking booking_2) db_1))).
  { eapply booked_next; [ vm_compute; reflexivity | ].
    eapply booked_next; [ vm_compute; reflexivity | ].
    vm_compute. apply booked_none. }
  split; [ exact S | split; [ reflexivity | ] ].
  apply (no_double_booking_preserved db_A [booking_1; booking_2]);
    [ apply FOP_nil | exact S ].
Defined.

(** C2. When the room of a request exists, [create_booking] fails with
    [Conflict] iff some stored booking with the same room id is not
    cancelled and overlaps the requested interval; when every overlapping
    booking of that room id is cancelled, the request is served and its
    booking stored. *)
Theorem create_booking_conflict_iff (db : Database) (booking : Booking) :
  room_exists db (room_id booking) ->
  (fst (run (create_booking booking) db) = Failed Conflict <->
   exists e, In e (bookings db)
             /\ room_id (doc e) = room_id booking
             /\ status (doc e) <> "cancelled"
             /\ overlaps (check_in (doc e)) (check_out (doc e))
                         (check_in booking) (check_out booking) = true)
  /\ ((forall e, In e (bookings db) ->
                 room_id (doc e) = room_id booking ->
                 overlaps (check_in (doc e)) (check_out (doc e))
                          (check_in booking) (check_out booking) = true ->
                 status (doc e) = "cancelled") ->
      exists booking_id,
        run (create_booking booking) db
        = (Ok booking_id, snd (insert_one coll_booking booking db))).
Proof.
  intros Hroom. rewrite (create_booking_run db booking Hroom).
  rewrite <- has_conflict_iff.
  destruct (has_conflict (bookings db) (room_id booking) (check_in booking)
              (check_out booking)) eqn:Hc; cbn [fst].
  - split; [ tauto | ]. intros Hall. exfalso.
    apply has_conflict_iff in Hc. destruct Hc as (e & He & Hr & Hs & Ho).
    apply Hs. now apply Hall.
  - split; [ split; discriminate | ]. intros _. now eexists.
Qed.

(** Scenario 4: with the booking of scenario 1 cancelled, the overlapping
    request is served. *)
Lemma create_booking_conflict_iff_witness :
  (fst (run (create_booking booking_1b) db_1) = Failed Conflict)
  /\ exists booking_id,
       run (create_booking booking_1b) db_1_cancelled
       = (Ok booking_id, snd (insert_one coll_booking booking_1b db_1_cancelled)).
Proof.
  assert (R1 : room_exists db_1 (room_id booking_1b)).
  { exists {| binary := 1 |}, (Build_Stored {| binary := 1 |} room_A).
    repeat split. now left. }
  assert (R2 : room_exists db_1_cancelled (room_id booking_1b)).
  { exists {| binary := 1 |}, (Build_Stored {| binary := 1 |} room_A).
    repeat split. now left. }
  split.
  - apply (proj1 (create_booking_conflict_iff db_1 booking_1b R1)).
    exists (Build_Stored {| binary := 2 |} booking_1).
    repeat split; [ now left | discriminate ].
  - apply (proj2 (create_booking_conflict_iff db_1_cancelled booking_1b R2)).
    intros e [<- | []] _ _. reflexivity.
Defined.

(* ================================================================== *)
(** ** Lemmas: the availability query *)

Lemma date_compare_antisym (a b : date) :
  date_compare a b = CompOpp (date_compare b a).
Proof.
  unfold date_compare.
  rewrite (Z.compare_antisym (year a) (year b)).
  rewrite (Z.compare_antisym (month a) (month b)).
  rewrite (Z.compare_antisym (day a) (day b)).
  destruct (year a ?= year b), (month a ?= month b), (day a ?= day b); reflexivity.
Qed.

Lemma date_leb_ltb (a b : date) : date_leb a b = negb (date_ltb b a).
Proof.
  unfold date_leb, date_ltb. rewrite (date_compare_antisym b a).
  destruct (date_compare a b); reflexivity.
Qed.

Lemma set_mem_add (x y : string) (s : set string) :
  set_mem string_dec x (set_add string_dec y s) = String.eqb y x || set_mem string_dec x s.
Proof.
  destruct (set_mem string_dec x (set_add string_dec y s)) eqn:E; symmetry.
  - apply set_mem_correct1, set_add_iff in E. destruct E as [-> | E].
    + now rewrite String.eqb_refl.
    + rewrite (set_mem_correct2 string_dec _ _ E). apply orb_true_r.
  - apply orb_false_iff. split.
    + apply String.eqb_neq. intros ->.
      apply set_mem_complete1 in E. apply E, set_add_iff. now left.
    + apply set_mem_complete2. intros Hin.
      apply set_mem_complete1 in E. apply E, set_add_iff. now right.
Qed.

(** A room id is among the booked ids iff one of the gathered bookings
    carries it. *)
Lemma booked_ids_mem (overlapping : list (Stored Booking)) :
  forall (ids : set string) (rid : string),
    set_mem string_dec rid
      (fold_left (fun ids b => set_add string_dec (room_id (doc b)) ids) overlapping ids)
    = set_mem string_dec rid ids
      || existsb (fun b => String.eqb (room_id (doc b)) rid) overlapping.
Proof.
  induction overlapping as [ | b l IH]; intros ids rid; cbn [fold_left existsb].
  - now rewrite orb_false_r.
  - rewrite IH, set_mem_add.
    destruct (String.eqb (room_id (doc b)) rid), (set_mem string_dec rid ids); reflexivity.
Qed.

Lemma existsb_filter {A : Type} (p q : A -> bool) (l : list A) :
  existsb p (filter q l) = existsb (fun x => q x && p x) l.
Proof.
  induction l as [ | x l IH]; simpl; [ reflexivity | ].
  destruct (q x); simpl; now rewrite IH.
Qed.

Lemma collect_available_filter (booked_ids : set string) (candidate_rooms : list (Stored Room)) :
  collect_available booked_ids candidate_rooms
  = map to_out
      (filter (fun r => negb (set_mem string_dec (ObjectId_str (_id r)) booked_ids))
              candidate_rooms).
Proof.
  induction candidate_rooms as [ | r l IH]; cbn [collect_available filter map];
    [ reflexivity | ].
  destruct (set_mem string_dec (ObjectId_str (_id r)) booked_ids); cbn [negb map];
    now rewrite IH.
Qed.

(** Membership in the set of booked ids, gathered over all rooms at once,
    is the conflict check of one room. *)
Lemma booked_ids_has_conflict (db : Database) (start stop : date) (rid : string) :
  set_mem string_dec rid
    (fold_left (fun ids b => set_add string_dec (room_id (doc b)) ids)
       (find coll_booking
          (f_all
             [ f_or [ f_all [ f_lt "check_in" (VStr (isoformat stop));
                              f_gt "check_out" (VStr (isoformat start)) ] ];
               f_ne "status" (VStr "cancelled") ])
          db)
       (empty_set string))
  = has_conflict (bookings db) rid start stop.
Proof.
  rewrite booked_ids_mem. cbn [set_mem empty_set orb].
  unfold find, has_conflict. cbn [documents dict_of].
  rewrite existsb_filter.
  induction (bookings db) as [ | b l IH]; cbn [existsb]; [ reflexivity | ].
  rewrite IH, overlap_filter_blocks. f_equal.
  unfold blocks. rewrite String.eqb_refl. cbn [andb].
  destruct (String.eqb (room_id (doc b)) rid); cbn [andb];
    [ now rewrite andb_true_r | now rewrite andb_false_r ].
Qed.

Lemma check_availability_run (db : Database) (payload : AvailabilityRequest.t) :
  run (check_availability payload) db =
  if date_leb (AvailabilityRequest.check_out payload) (AvailabilityRequest.check_in payload)
  then (Failed InvalidRange, db)
  else (Ok (map to_out
              (find_available db (AvailabilityRequest.check_in payload)
                 (AvailabilityRequest.check_out payload)
                 (AvailabilityRequest.guests payload))),
        db).
Proof.
  unfold check_availability.
  destruct (date_leb (AvailabilityRequest.check_out payload)
              (AvailabilityRequest.check_in payload)); [ reflexivity | ].
  cbn [bind run get_documents]. f_equal. f_equal.
  rewrite collect_available_filter. f_equal.
  rewrite (filter_ext _
             (fun r => negb (has_conflict (bookings db) (ObjectId_str (_id r))
                               (AvailabilityRequest.check_in payload)
                               (AvailabilityRequest.check_out payload))))
    by (intros r; now rewrite booked_ids_has_conflict).
  unfold find, find_available. cbn [documents dict_of].
  rewrite filter_filter. apply filter_ext. intros r.
  now rewrite capacity_filter.
Qed.

(* ================================================================== *)
(** ** The availability query *)

(** C5, as the code has it. For a valid interval ([check_in < check_out])
    and a guest count, the availability query answers exactly the rooms of
    at least that capacity for which no stored booking whose [room_id] is
    the text of the room's identity is non-cancelled and overlapping:
    gathering the overlapping bookings of all rooms at once and excluding
    rooms by membership in the set of booked ids selects the same rooms, in
    the same order, as a conflict check per room. The store is left as it
    was. *)
Theorem check_availability_per_room (db : Database) (payload : AvailabilityRequest.t) :
  date_ltb (AvailabilityRequest.check_in payload)
           (AvailabilityRequest.check_out payload) = true ->
  run (check_availability payload) db
  = (Ok (map to_out
           (find_available db (AvailabilityRequest.check_in payload)
              (AvailabilityRequest.check_out payload)
              (AvailabilityRequest.guests payload))),
     db).
Proof.
  intros Hvalid. rewrite check_availability_run, date_leb_ltb, Hvalid. reflexivity.
Qed.

(** Scenario 3: room A is offered before the booking of scenario 1 and
    not after it. *)
Lemma check_availability_per_room_witness :
  fst (run (check_availability query_3) db_A) = Ok [to_out (Build_Stored {| binary := 1 |} room_A)]
  /\ fst (run (check_availability query_3) db_1) = Ok [].
Proof.
  split.
  - rewrite (check_availability_per_room db_A query_3 eq_refl). reflexivity.
  - rewrite (check_availability_per_room db_1 query_3 eq_refl). reflexivity.
Defined.

(* ================================================================== *)
(** ** Intervals, turnover and capacity *)

Lemma date_ltb_irrefl (a : date) : date_ltb a a = false.
Proof.
  unfold date_ltb, date_compare. now rewrite !Z.compare_refl.
Qed.

(** C4. [create_booking] treats a stored booking [A] as overlapping a
    request [B] exactly when [A.start < B.end] and [B.start < A.end]: with
    the room found, the request fails with [Conflict] iff some stored
    booking of the room id, not cancelled, stands so to it. So a request
    that checks in on the day a stored booking checks out, of its room
    under any spelling of the room id, is not in conflict with it, and is
    served when no other booking of the room id, not cancelled, overlaps
    it. *)
Theorem back_to_back_is_served (db : Database) (booking : Booking) :
  room_exists db (room_id booking) ->
  (run (create_booking booking) db = (Failed Conflict, db)
   <-> exists a, In a (bookings db)
                 /\ room_id (doc a) = room_id booking
                 /\ status (doc a) <> "cancelled"
                 /\ date_ltb (check_in (doc a)) (check_out booking) = true
                 /\ date_ltb (check_in booking) (check_out (doc a)) = true)
  /\ (forall e,
        In e (bookings db) ->
        check_in booking = check_out (doc e) ->
        (forall e', In e' (bookings db) -> e' <> e ->
                    ~ (room_id (doc e') = room_id booking
                       /\ status (doc e') <> "cancelled"
                       /\ date_ltb (check_in (doc e')) (check_out booking) = true
                       /\ date_ltb (check_in booking) (check_out (doc e')) = true)) ->
        exists booking_id,
          run (create_booking booking) db
          = (Ok booking_id, snd (insert_one coll_booking booking db))).
Proof.
  intros Hroom. rewrite (create_booking_run db booking Hroom).
  assert (Hc : has_conflict (bookings db) (room_id booking) (check_in booking)
                 (check_out booking) = true
               <-> exists a, In a (bookings db)
                             /\ room_id (doc a) = room_id booking
                             /\ status (doc a) <> "cancelled"
                             /\ date_ltb (check_in (doc a)) (check_out booking) = true
                             /\ date_ltb (check_in booking) (check_out (doc a)) = true).
  { unfold has_conflict. rewrite existsb_exists.
    split; intros (a & Ha & H); exists a; (split; [ exact Ha | ]); now apply blocks_iff. }
  split.
  - rewrite <- Hc.
    destruct (has_conflict (bookings db) (room_id booking) (check_in booking)
                (check_out booking)); split; try reflexivity; discriminate.
  - intros e He Hturn Hothers.
    destruct (has_conflict (bookings db) (room_id booking) (check_in booking)
                (check_out booking)); [ exfalso | now eexists ].
    destruct (proj1 Hc eq_refl) as (a & Ha & Hr & Hs & H1 & H2).
    assert (Hne : a <> e).
    { intros ->. rewrite Hturn, date_ltb_irrefl in H2. discriminate. }
    apply (Hothers a Ha Hne). tauto.
Qed.

(** Scenarios 1 and 2: room A booked for [2024-06-01, 2024-06-05); the
    request for [2024-06-03, 2024-06-07) fails with [Conflict], the request
    for [2024-06-05, 2024-06-08) is served. *)
Lemma back_to_back_is_served_witness :
  run (create_booking booking_1b) db_1 = (Failed Conflict, db_1)
  /\ exists booking_id,
       run (create_booking booking_2) db_1
       = (Ok booking_id, snd (insert_one coll_booking booking_2 db_1)).
Proof.
  assert (R : forall b, room_id b = id_A -> room_exists db_1 (room_id b)).
  { intros b ->. exists {| binary := 1 |}, (Build_Stored {| binary := 1 |} room_A).
    repeat split. now left. }
  split.
  - apply (proj1 (back_to_back_is_served db_1 booking_1b (R booking_1b eq_refl))).
    exists (Build_Stored {| binary := 2 |} booking_1).
    repeat split; [ now left | discriminate ].
  - apply (proj2 (back_to_back_is_served db_1 booking_2 (R booking_2 eq_refl))
             (Build_Stored {| binary := 2 |} booking_1));
      [ now left | reflexivity | ].
    intros e' [<- | []] Hne. now elim Hne.
Defined.

(** C7. A request for more guests than the room it names holds, its guest
    count within the bounds of the schema (1 to 12), is not refused for
    that: when the room exists and no non-cancelled booking of the room
    overlaps, it is served and its booking stored. *)
Theorem guests_above_capacity_served
  (db : Database) (booking : Booking) (oid : ObjectId) (r : Stored Room) :
  Booking_fields_ok booking = true ->
  ObjectId_of_str (room_id booking) = Some oid ->
  In r (rooms db) -> _id r = oid ->
  capacity (doc r) < guests booking ->
  has_conflict (bookings db) (room_id booking) (check_in booking) (check_out booking) = false ->
  exists booking_id db',
    run (create_booking booking) db = (Ok booking_id, db')
    /\ bookings db' = bookings db ++ [Build_Stored {| binary := next_oid db |} booking].
Proof.
  intros _ Hoid Hin Hid _ Hfree.
  assert (Hroom : room_exists db (room_id booking)) by (now exists oid, r).
  rewrite (create_booking_run db booking Hroom), Hfree.
  do 2 eexists. split; [ reflexivity | apply ledger_after_insert ].
Qed.

(** Twelve guests in room A, which holds two. *)
Lemma guests_above_capacity_served_witness :
  capacity room_A < guests (request id_A jun01 jun05 12 "confirmed")
  /\ exists booking_id db',
       run (create_booking (request id_A jun01 jun05 12 "confirmed")) db_A
       = (Ok booking_id, db')
       /\ bookings db'
          = [Build_Stored {| binary := 2 |} (request id_A jun01 jun05 12 "confirmed")].
Proof.
  split; [ reflexivity | ].
  apply (guests_above_capacity_served db_A (request id_A jun01 jun05 12 "confirmed")
           {| binary := 1 |} (Build_Stored {| binary := 1 |} room_A));
    [ reflexivity | reflexivity | now left | reflexivity | reflexivity | reflexivity ].
Defined.

(* ================================================================== *)
(** ** The text of dates in the store *)

(** C8. The ISO-8601 text of dates keeps their order: [a.isoformat()] is
    below [b.isoformat()] as text iff the day of [a] comes before the day
    of [b], which is also when [a < b] as dates. So the two text
    comparisons of the overlap queries, on the stored [check_in] and
    [check_out], decide the two date comparisons of the interval rule. *)
Theorem isoformat_preserves_order (a b : date) :
  (String.ltb (isoformat a) (isoformat b) = true <-> toordinal a < toordinal b)
  /\ (date_ltb a b = true <-> toordinal a < toordinal b)
  /\ (forall e : Stored Booking,
        matches (f_lt "check_in" (VStr (isoformat b))) (stored_dict e)
        = date_ltb (check_in (doc e)) b
        /\ matches (f_gt "check_out" (VStr (isoformat a))) (stored_dict e)
           = date_ltb a (check_out (doc e))).
Proof.
  split; [ | split ].
  - rewrite isoformat_ltb. apply toordinal_ltb.
  - apply toordinal_ltb.
  - intros e. split; booking_lookups e; now rewrite isoformat_ltb, orb_false_r.
Qed.

(* ================================================================== *)
(** ** Reading the store *)

Lemma read_only_run {R : Type} (p : Prog R) :
  read_only p -> forall db, snd (run p db) = db.
Proof.
  induction 1 as [ r | e | A c q k _ IH | A c q k _ IH ]; intros db; cbn [run];
    [ reflexivity | reflexivity | apply IH | apply IH ].
Qed.

Lemma list_rooms_read_only : read_only list_rooms.
Proof. unfold list_rooms, get_documents. cbn [bind]. repeat constructor. Qed.

Lemma list_bookings_read_only (email : option string) : read_only (list_bookings email).
Proof. unfold list_bookings, get_documents. cbn [bind]. repeat constructor. Qed.

Lemma check_availability_read_only (payload : AvailabilityRequest.t) :
  read_only (check_availability payload).
Proof.
  unfold check_availability, get_documents.
  destruct (date_leb _ _); cbn [bind]; repeat constructor.
Qed.

(** C9. [list_rooms] and [list_bookings] leave both collections as they
    found them, and asked again at once they answer the same. *)
Theorem listing_leaves_store (db : Database) (email : option string) :
  snd (run list_rooms db) = db
  /\ snd (run (list_bookings email) db) = db
  /\ run list_rooms (snd (run list_rooms db)) = run list_rooms db
  /\ run (list_bookings email) (snd (run (list_bookings email) db))
     = run (list_bookings email) db.
Proof.
  pose proof (read_only_run list_rooms list_rooms_read_only db) as Hr.
  pose proof (read_only_run (list_bookings email) (list_bookings_read_only email) db) as Hb.
  split; [ exact Hr | ]. split; [ exact Hb | ].
  split; [ now rewrite Hr | now rewrite Hb ].
Qed.

(** C10. [list_bookings] with the empty string for [email] answers every
    booking, as with no [email] at all; the filter on [email] is sent only
    for a non-empty string, and then selects the bookings with exactly that
    email, none of which has the empty string for its email. *)
Theorem list_bookings_empty_email (db : Database) :
  run (list_bookings (Some EmptyString)) db = run (list_bookings None) db
  /\ run (list_bookings None) db = (Ok (map to_out (bookings db)), db)
  /\ (forall c s,
        run (list_bookings (Some (String c s))) db
        = (Ok (map to_out
                 (filter (fun b => String.eqb (email (doc b)) (String c s)) (bookings db))),
           db))
  /\ (forall c s,
        existsb (fun b => String.eqb (email (doc b)) EmptyString)
          (filter (fun b => String.eqb (email (doc b)) (String c s)) (bookings db))
        = false).
Proof.
  split; [ reflexivity | ]. split.
  - unfold list_bookings, get_documents, find. cbn. now rewrite filter_true.
  - split; intros c s.
    + unfold list_bookings, get_documents, find. cbn [truthy bind run documents dict_of].
      do 3 f_equal. apply filter_ext. intros b. apply email_filter.
    + apply existsb_false_in. intros b Hb. apply filter_In in Hb. destruct Hb as [_ Hb].
      apply String.eqb_eq in Hb. rewrite Hb. reflexivity.
Qed.

(* ================================================================== *)
(** ** Ranges that are not intervals *)

(** The availability query refuses a range that ends on or before the day
    it starts, and leaves the store as it was. *)
Lemma check_availability_invalid_range (db : Database) (payload : AvailabilityRequest.t) :
  date_leb (AvailabilityRequest.check_out payload) (AvailabilityRequest.check_in payload)
  = true ->
  run (check_availability payload) db = (Failed InvalidRange, db).
Proof. intros H. now rewrite check_availability_run, H. Qed.

(** C3. Scenario 6 on the code: with [check_out = check_in], the
    availability query fails with [InvalidRange] and leaves the store as it
    was, but [create_booking], which never compares the two dates, serves
    the request and stores the booking. *)
Theorem zero_night_booking_is_stored :
  date_leb (check_out booking_6) (check_in booking_6) = true
  /\ run (check_availability query_6) db_A = (Failed InvalidRange, db_A)
  /\ run (create_booking booking_6) db_A
     = (Ok "000000000000000000000002",
        {| rooms := rooms db_A;
           bookings := [Build_Stored {| binary := 2 |} booking_6];
           next_oid := 3 |}).
Proof. repeat split. Qed.

(* ================================================================== *)
(** ** Two requests in flight *)

Lemma interleave_first {R : Type} (n : nat) (schedule : list bool) :
  forall (p1 p2 : Prog R) (db : Database),
    interleave (repeat true n ++ schedule) p1 p2 db
    = interleave schedule (fst (steps n p1 db)) p2 (snd (steps n p1 db)).
Proof.
  induction n as [ | n IH]; intros p1 p2 db; [ reflexivity | ].
  cbn [repeat app interleave steps]. destruct (step p1 db) as [p1' db']. apply IH.
Qed.

Lemma interleave_second {R : Type} (n : nat) (schedule : list bool) :
  forall (p1 p2 : Prog R) (db : Database),
    interleave (repeat false n ++ schedule) p1 p2 db
    = interleave schedule p1 (fst (steps n p2 db)) (snd (steps n p2 db)).
Proof.
  induction n as [ | n IH]; intros p1 p2 db; [ reflexivity | ].
  cbn [repeat app interleave steps]. destruct (step p2 db) as [p2' db']. apply IH.
Qed.

(** [create_booking] is over after three store operations, and then it has
    done what [run] says. *)
Lemma create_booking_steps (db : Database) (b : Booking) :
  steps 3 (create_booking b) db
  = (finished (fst (run (create_booking b) db)), snd (run (create_booking b) db)).
Proof.
  unfold create_booking, _to_id.
  destruct (ObjectId_of_str (room_id b)) as [oid | ]; cbn [bind run steps step];
    [ | reflexivity ].
  destruct (find_one coll_room (f_eq "_id" (VOid oid)) db) as [r | ];
    cbn [bind run steps step]; [ | reflexivity ].
  match goal with
  | |- context [find_one coll_booking ?q db] => destruct (find_one coll_booking q db)
  end; cbn [bind run steps step create_document]; reflexivity.
Qed.

(** Two requests served one after the other. *)
Lemma one_after_the_other (db : Database) (b1 b2 : Booking) :
  interleave [true; true; true; false; false; false]
    (create_booking b1) (create_booking b2) db
  = (finished (fst (run (create_booking b1) db)),
     finished (fst (run (create_booking b2) (snd (run (create_booking b1) db)))),
     snd (run (create_booking b2) (snd (run (create_booking b1) db)))).
Proof.
  change [true; true; true; false; false; false]
    with (repeat true 3 ++ repeat false 3 ++ []).
  rewrite interleave_first, create_booking_steps. cbn [fst snd].
  rewrite interleave_second, create_booking_steps. reflexivity.
Qed.

(** Served one after the other: of two requests for one room id with
    overlapping intervals, the first of them not cancelled, on a ledger
    that does not block the first, the first succeeds and the second fails
    with [Conflict]. *)
Lemma second_request_conflicts (db : Database) (b1 b2 : Booking) :
  room_exists db (room_id b1) ->
  room_id b1 = room_id b2 ->
  status b1 <> "cancelled" ->
  overlaps (check_in b1) (check_out b1) (check_in b2) (check_out b2) = true ->
  has_conflict (bookings db) (room_id b1) (check_in b1) (check_out b1) = false ->
  interleave [true; true; true; false; false; false]
    (create_booking b1) (create_booking b2) db
  = (Return (ObjectId_str {| binary := next_oid db |}),
     Raise Conflict,
     snd (insert_one coll_booking b1 db)).
Proof.
  intros Hroom Hsame Hstatus Hov Hfree.
  rewrite one_after_the_other, (create_booking_run db b1 Hroom), Hfree. cbn [fst snd].
  assert (Hroom2 : room_exists (snd (insert_one coll_booking b1 db)) (room_id b2)).
  { rewrite <- Hsame. destruct Hroom as (oid & r & Ho & Hin & Hid). now exists oid, r. }
  rewrite (create_booking_run _ b2 Hroom2).
  replace (has_conflict (bookings (snd (insert_one coll_booking b1 db))) (room_id b2)
             (check_in b2) (check_out b2)) with true; [ reflexivity | ].
  symmetry. apply has_conflict_iff.
  exists (Build_Stored {| binary := next_oid db |} b1).
  rewrite (proj1 (ledger_after_insert db b1)), in_app_iff.
  repeat split; [ right; now left | exact Hsame | exact Hstatus | exact Hov ].
Qed.

(** Scenario 1 as two requests in a row. *)
Lemma second_request_conflicts_witness :
  interleave [true; true; true; false; false; false]
    (create_booking booking_1) (create_booking booking_1b) db_A
  = (Return "000000000000000000000002", Raise Conflict, db_1).
Proof.
  refine (second_request_conflicts db_A booking_1 booking_1b _ _ _ _ _).
  - exists {| binary := 1 |}, (Build_Stored {| binary := 1 |} room_A).
    repeat split. now left.
  - reflexivity.
  - discriminate.
  - reflexivity.
  - reflexivity.
Defined.

(** Scenario 5 on the code: the request of scenario 1 sent twice, the
    store operations of the two alternating. Both conflict checks come
    before either insert, both requests are served, and the ledger holds
    room A twice for [2024-06-01, 2024-06-05). *)
Lemma both_requests_served :
  interleave alternating (create_booking booking_1) (create_booking booking_1) db_A
  = (Return "000000000000000000000002", Return "000000000000000000000003", db_race)
  /\ map doc (bookings db_race) = [booking_1; booking_1]
  /\ double_booked booking_1 booking_1 = true
  /\ ~ no_double_booking (bookings db_race).
Proof.
  repeat split.
  intros H. inversion H as [ | a l Ha _ ]; subst.
  inversion Ha as [ | x l' Hx _ ]; subst. discriminate Hx.
Qed.

(* ================================================================== *)
(** ** Identities as text *)

(** X1. The room of a request is looked up by the [ObjectId] its [room_id]
    spells, in either letter case; the conflict check and the availability
    query compare the text itself. Two requests that spell the identity of
    one room differently, for the same nights, are both served one after the
    other, and a room booked under the upper-case spelling is still
    offered. *)
Theorem room_id_spelling :
  ObjectId_of_str id_B_upper = ObjectId_of_str id_B
  /\ fst (run list_rooms db_B) = Ok [ {| id := id_B; fields := room_A |} ]
  /\ booked_in_sequence db_B
       [ request id_B jun01 jun05 2 "confirmed";
         request id_B_upper jun01 jun05 2 "confirmed" ]
       {| rooms := rooms db_B;
          bookings :=
            [ Build_Stored {| binary := 11 |} (request id_B jun01 jun05 2 "confirmed");
              Build_Stored {| binary := 12 |} (request id_B_upper jun01 jun05 2 "confirmed") ];
          next_oid := 13 |}
  /\ fst (run (check_availability query_3)
            (snd (run (create_booking (request id_B_upper jun01 jun05 2 "confirmed")) db_B)))
     = Ok [ {| id := id_B; fields := room_A |} ].
Proof.
  split; [ reflexivity | ]. split; [ reflexivity | ]. split; [ | reflexivity ].
  eapply booked_next; [ vm_compute; reflexivity | ].
  eapply booked_next; [ vm_compute; reflexivity | ].
  apply booked_none.
Qed.

(** One room booked twice by requests in a row: from a store with no
    booking, two requests served one after the other leave two bookings of
    one room, neither cancelled, for the same nights. Their room ids spell
    the identity of the room in different letter case. *)
Lemma one_room_booked_twice :
  no_double_booking (bookings db_B)
  /\ booked_in_sequence db_B [booking_B; booking_B_upper] db_B_twice
  /\ map doc (bookings db_B_twice) = [booking_B; booking_B_upper]
  /\ same_room booking_B booking_B_upper
  /\ status booking_B <> "cancelled"
  /\ status booking_B_upper <> "cancelled"
  /\ overlaps (check_in booking_B) (check_out booking_B)
              (check_in booking_B_upper) (check_out booking_B_upper) = true.
Proof.
  split; [ apply FOP_nil | ]. split.
  - eapply booked_next; [ vm_compute; reflexivity | ].
    eapply booked_next; [ vm_compute; reflexivity | ].
    vm_compute. apply booked_none.
  - split; [ reflexivity | ]. split; [ now exists {| binary := 10 |} | ].
    repeat split; discriminate.
Qed.

(** A booked room that is offered: the only room of the store has a
    booking, not cancelled, for the nights asked, under the upper-case
    spelling of its identity, and the availability query still offers it. *)
Lemma booked_room_is_still_offered :
  map doc (bookings db_B_upper) = [booking_B_upper]
  /\ rooms db_B_upper = [Build_Stored {| binary := 10 |} room_A]
  /\ ObjectId_of_str (room_id booking_B_upper) = Some {| binary := 10 |}
  /\ status booking_B_upper <> "cancelled"
  /\ overlaps (check_in booking_B_upper) (check_out booking_B_upper)
              (AvailabilityRequest.check_in query_3)
              (AvailabilityRequest.check_out query_3) = true
  /\ fst (run (check_availability query_3) db_B_upper)
     = Ok [to_out (Build_Stored {| binary := 10 |} room_A)].
Proof. repeat split; discriminate. Qed.


(* ================================================================== *)
(** ** Identities read back, and the decisions of [create_booking] *)

Lemma hex_value_digit (d : Z) : 0 <= d < 16 -> hex_value (digit_char d) = Some d.
Proof.
  intros H.
  assert (E : d = 0 \/ d = 1 \/ d = 2 \/ d = 3 \/ d = 4 \/ d = 5 \/ d = 6 \/ d = 7
              \/ d = 8 \/ d = 9 \/ d = 10 \/ d = 11 \/ d = 12 \/ d = 13 \/ d = 14
              \/ d = 15) by lia.
  repeat destruct E as [E | E]; subst d; reflexivity.
Qed.

Lemma length_append (s t : string) :
  String.length (s ++ t)%string = (String.length s + String.length t)%nat.
Proof. induction s as [ | c s IH]; simpl; [ reflexivity | now rewrite IH ]. Qed.

Lemma length_digits (base : Z) (w : nat) : forall n, String.length (digits base w n) = w.
Proof.
  induction w as [ | w IH]; intros n; cbn [digits]; [ reflexivity | ].
  rewrite length_append, IH. cbn [String.length]. lia.
Qed.

Lemma digit_is_no_space (d : Z) : 0 <= d < 16 -> is_space (digit_char d) = false.
Proof.
  intros H.
  assert (E : d = 0 \/ d = 1 \/ d = 2 \/ d = 3 \/ d = 4 \/ d = 5 \/ d = 6 \/ d = 7
              \/ d = 8 \/ d = 9 \/ d = 10 \/ d = 11 \/ d = 12 \/ d = 13 \/ d = 14
              \/ d = 15) by lia.
  repeat destruct E as [E | E]; subst d; reflexivity.
Qed.

Lemma digits_two_more (w : nat) (n : Z) :
  digits 16 (S (S w)) n
  = (digits 16 w (n / 256)
     ++ String (digit_char ((n / 16) mod 16)) (String (digit_char (n mod 16)) EmptyString))%string.
Proof.
  cbn [digits]. rewrite append_assoc. cbn [append].
  now rewrite Z.div_div by lia.
Qed.

(** [bytes.fromhex] reads the bytes of a hexadecimal numeral of even width. *)
Lemma fromhex_digits (k : nat) :
  forall (n : Z) (rest : string) (count : nat) (acc : Z),
    0 <= n < 256 ^ Z.of_nat k ->
    fromhex (digits 16 (2 * k) n ++ rest)%string count acc
    = fromhex rest (count + k) (acc * 256 ^ Z.of_nat k + n).
Proof.
  induction k as [ | k IH]; intros n rest count acc Hn.
  - cbn in Hn. cbn [Nat.mul digits append]. f_equal; [ lia | cbn; lia ].
  - rewrite Nat2Z.inj_succ, Z.pow_succ_r in * by lia.
    replace (2 * S k)%nat with (S (S (2 * k))) by lia.
    rewrite digits_two_more, append_assoc.
    rewrite IH by (split; [ apply Z.div_pos; lia | apply Z.div_lt_upper_bound; lia ]).
    assert (Ht : 0 <= (n / 16) mod 16 < 16) by (apply Z.mod_pos_bound; lia).
    assert (Hb : 0 <= n mod 16 < 16) by (apply Z.mod_pos_bound; lia).
    cbn [append fromhex].
    rewrite (digit_is_no_space _ Ht), (hex_value_digit _ Ht), (hex_value_digit _ Hb).
    f_equal; [ lia | ].
    replace (acc * (256 * 256 ^ Z.of_nat k)) with (256 * (acc * 256 ^ Z.of_nat k)) by ring.
    generalize (acc * 256 ^ Z.of_nat k). intros q.
    clear IH Hn Ht Hb. Z.div_mod_to_equations. lia.
Qed.

(** The text of an identity reads back as that identity. *)
Lemma ObjectId_round_trip (o : ObjectId) :
  oid_ok o -> ObjectId_of_str (ObjectId_str o) = Some o.
Proof.
  intros H. unfold ObjectId_of_str, ObjectId_str.
  rewrite length_digits, Nat.eqb_refl.
  rewrite <- (append_nil_r (digits 16 24 (binary o))).
  change 24%nat with (2 * 12)%nat at 1.
  rewrite (fromhex_digits 12) by exact H.
  cbn [fromhex Nat.add Nat.sub Z.of_nat]. destruct o as [b]. cbn [binary].
  f_equal. f_equal. lia.
Qed.

Lemma room_known_lookup (db : Database) (oid : ObjectId) :
  match find_one coll_room (f_eq "_id" (VOid oid)) db with Some _ => true | None => false end
  = room_known db oid.
Proof.
  rewrite find_one_some. cbn [documents dict_of]. unfold room_known.
  induction (rooms db) as [ | r l IH]; [ reflexivity | ].
  cbn [existsb]. now rewrite id_filter, IH.
Qed.

(** What [create_booking] does, by the identity, the catalog and the ledger. *)
Lemma create_booking_decides (db : Database) (booking : Booking) :
  run (create_booking booking) db =
  match ObjectId_of_str (room_id booking) with
  | None => (Failed InvalidId, db)
  | Some oid =>
      if room_known db oid
      then if has_conflict (bookings db) (room_id booking)
                (check_in booking) (check_out booking)
           then (Failed Conflict, db)
           else (Ok (ObjectId_str {| binary := next_oid db |}),
                 {| rooms := rooms db;
                    bookings := bookings db
                                ++ [Build_Stored {| binary := next_oid db |} booking];
                    next_oid := next_oid db + 1 |})
      else (Failed NotFound, db)
  end.
Proof.
  pose proof (conflict_lookup db booking) as Hc.
  unfold create_booking, _to_id.
  destruct (ObjectId_of_str (room_id booking)) as [oid | ]; cbn [bind run]; [ | reflexivity ].
  rewrite <- room_known_lookup.
  destruct (find_one coll_room (f_eq "_id" (VOid oid)) db) as [r | ]; cbn [bind run];
    [ | reflexivity ].
  rewrite <- Hc.
  match goal with
  | |- context [find_one coll_booking ?q db] => destruct (find_one coll_booking q db)
  end; reflexivity.
Qed.

Lemma create_booking_failed (db : Database) (booking : Booking) e db' :
  run (create_booking booking) db = (Failed e, db') ->
  db' = db /\ (e = InvalidId \/ e = NotFound \/ e = Conflict).
Proof.
  rewrite create_booking_decides.
  destruct (ObjectId_of_str (room_id booking)) as [oid | ];
    [ destruct (room_known db oid);
      [ destruct (has_conflict (bookings db) (room_id booking) (check_in booking)
                    (check_out booking)) | ] | ];
    intros H; inversion H; subst; auto.
Qed.

(** X3. A refused booking request leaves the store as it was, and the
    refusal is [InvalidId], [NotFound] or [Conflict]. *)
Theorem refused_booking_changes_nothing
  (db : Database) (booking : Booking) (e : HTTPException) (db' : Database) :
  run (create_booking booking) db = (Failed e, db') ->
  db' = db /\ (e = InvalidId \/ e = NotFound \/ e = Conflict).
Proof. apply create_booking_failed. Qed.

Lemma refused_booking_changes_nothing_witness :
  snd (run (create_booking booking_1b) db_1) = db_1.
Proof.
  exact (proj1 (refused_booking_changes_nothing db_1 booking_1b Conflict
                  (snd (run (create_booking booking_1b) db_1)) eq_refl)).
Defined.

Lemma create_booking_served (db : Database) (booking : Booking) booking_id db' :
  run (create_booking booking) db = (Ok booking_id, db') ->
  has_conflict (bookings db) (room_id booking) (check_in booking) (check_out booking) = false
  /\ (exists oid, ObjectId_of_str (room_id booking) = Some oid /\ room_known db oid = true)
  /\ booking_id = ObjectId_str {| binary := next_oid db |}
  /\ db' = {| rooms := rooms db;
              bookings := bookings db ++ [Build_Stored {| binary := next_oid db |} booking];
              next_oid := next_oid db + 1 |}.
Proof.
  rewrite create_booking_decides.
  destruct (ObjectId_of_str (room_id booking)) as [oid | ]; [ | discriminate ].
  destruct (room_known db oid) eqn:Hk; [ | discriminate ].
  destruct (has_conflict (bookings db) (room_id booking) (check_in booking)
              (check_out booking)); [ discriminate | ].
  intros H. inversion H; subst. repeat split. now exists oid.
Qed.

Lemma list_bookings_all (db : Database) :
  run (list_bookings None) db = (Ok (map to_out (bookings db)), db).
Proof. unfold list_bookings, get_documents, find. cbn. now rewrite filter_true. Qed.

Lemma list_bookings_by_email (db : Database) (c : ascii) (s : string) :
  run (list_bookings (Some (String c s))) db
  = (Ok (map to_out
           (filter (fun b => String.eqb (email (doc b)) (String c s)) (bookings db))),
     db).
Proof.
  unfold list_bookings, get_documents, find. cbn [truthy bind run documents dict_of].
  do 3 f_equal. apply filter_ext. intros b. apply email_filter.
Qed.

Lemma list_rooms_all (db : Database) :
  run list_rooms db = (Ok (map to_out (rooms db)), db).
Proof. unfold list_rooms, get_documents, find. cbn. now rewrite filter_true. Qed.

(** X4. A served booking request leaves the rooms as they were and is
    listed last by [list_bookings], under the identity answered, after the
    bookings listed before; asked by its email, when that is not empty,
    [list_bookings] shows it among bookings of that email only. *)
Theorem served_booking_is_listed
  (db : Database) (booking : Booking) (booking_id : string) (db' : Database) :
  run (create_booking booking) db = (Ok booking_id, db') ->
  rooms db' = rooms db
  /\ fst (run (list_bookings None) db')
     = Ok (map to_out (bookings db) ++ [ {| id := booking_id; fields := booking |} ])
  /\ (email booking <> EmptyString ->
      exists listed,
        fst (run (list_bookings (Some (email booking))) db') = Ok listed
        /\ In {| id := booking_id; fields := booking |} listed
        /\ forall out, In out listed -> email (fields out) = email booking).
Proof.
  intros H. apply create_booking_served in H. destruct H as (_ & _ & -> & ->).
  split; [ reflexivity | ]. split.
  - rewrite list_bookings_all. cbn [fst bookings]. now rewrite map_app.
  - intros He. destruct (email booking) as [ | c s] eqn:E; [ now elim He | ].
    rewrite list_bookings_by_email. cbn [fst bookings]. eexists. split; [ reflexivity | ].
    split.
    + apply in_map_iff. exists (Build_Stored {| binary := next_oid db |} booking).
      split; [ reflexivity | ]. apply filter_In. split.
      * apply in_app_iff. right. now left.
      * cbn [doc]. rewrite E. apply String.eqb_refl.
    + intros out Hout. apply in_map_iff in Hout. destruct Hout as (b & <- & Hb).
      apply filter_In in Hb. destruct Hb as [_ Hb]. now apply String.eqb_eq in Hb.
Qed.

Lemma served_booking_is_listed_witness :
  fst (run (list_bookings None) db_1)
  = Ok [ {| id := "000000000000000000000002"; fields := booking_1 |} ].
Proof.
  exact (proj1 (proj2 (served_booking_is_listed db_A booking_1
                         "000000000000000000000002" db_1 eq_refl))).
Defined.

(** X5. [create_room] always answers an identity; [list_rooms] then shows
    the rooms listed before and, last, the new room under that identity. The
    bookings are as they were. *)
Theorem created_room_is_listed (db : Database) (room : Room) :
  exists room_id',
    fst (run (create_room room) db) = Ok room_id'
    /\ fst (run list_rooms (snd (run (create_room room) db)))
       = Ok (map to_out (rooms db) ++ [ {| id := room_id'; fields := room |} ])
    /\ bookings (snd (run (create_room room) db)) = bookings db.
Proof.
  eexists. split; [ reflexivity | ]. split; [ | reflexivity ].
  rewrite list_rooms_all. cbn. now rewrite map_app.
Qed.

(* ================================================================== *)
(** ** Rooms created, offered and booked *)

Lemma room_known_in (db : Database) (r : Stored Room) :
  In r (rooms db) -> room_known db (_id r) = true.
Proof.
  intros H. unfold room_known. apply existsb_exists. exists r.
  split; [ exact H | ]. unfold ObjectId_eqb. apply Z.eqb_refl.
Qed.

(** X6. The identity [create_room] answers is one [create_booking] accepts
    and finds: a request for it that no earlier booking blocks is served. *)
Theorem created_room_can_be_booked (db : Database) (room : Room) (booking : Booking) :
  0 <= next_oid db < 2 ^ 96 ->
  fst (run (create_room room) db) = Ok (room_id booking) ->
  has_conflict (bookings db) (room_id booking) (check_in booking) (check_out booking)
  = false ->
  exists booking_id db',
    run (create_booking booking) (snd (run (create_room room) db)) = (Ok booking_id, db')
    /\ map doc (bookings db') = map doc (bookings db) ++ [booking].
Proof.
  intros Hid Hroom Hfree.
  cbn [run create_room create_document bind fst insert_one] in Hroom.
  injection Hroom as Hroom.
  rewrite create_booking_decides, <- Hroom.
  rewrite ObjectId_round_trip by exact Hid.
  replace (room_known (snd (run (create_room room) db)) {| binary := next_oid db |})
    with true.
  2:{ symmetry. unfold room_known. cbn. rewrite existsb_app. cbn.
      unfold ObjectId_eqb. cbn. rewrite Z.eqb_refl. now rewrite orb_true_r. }
  cbn [run create_room create_document bind snd insert_one bookings].
  rewrite Hroom, Hfree. do 2 eexists. split; [ reflexivity | ].
  cbn [bookings]. rewrite map_app. reflexivity.
Qed.

Lemma created_room_can_be_booked_witness :
  exists booking_id db',
    run (create_booking booking_1) db_A = (Ok booking_id, db')
    /\ map doc (bookings db') = [booking_1].
Proof.
  apply (created_room_can_be_booked empty_db room_A booking_1);
    [ unfold empty_db; cbn [next_oid]; lia | reflexivity | reflexivity ].
Defined.

Lemma offered_rooms (db : Database) (payload : AvailabilityRequest.t) offered :
  fst (run (check_availability payload) db) = Ok offered ->
  date_ltb (AvailabilityRequest.check_in payload) (AvailabilityRequest.check_out payload)
  = true
  /\ offered = map to_out
                 (find_available db (AvailabilityRequest.check_in payload)
                    (AvailabilityRequest.check_out payload)
                    (AvailabilityRequest.guests payload)).
Proof.
  rewrite check_availability_run, date_leb_ltb.
  destruct (date_ltb (AvailabilityRequest.check_in payload)
              (AvailabilityRequest.check_out payload)); cbn [negb fst];
    [ | discriminate ].
  intros H. injection H as <-. now split.
Qed.

(** X7. Every room the availability query offers can be booked, under the
    [id] offered, for the interval asked, as long as nothing is written in
    between. *)
Theorem offered_room_can_be_booked
  (db : Database) (payload : AvailabilityRequest.t) (offered : list RoomOut)
  (out : RoomOut) (booking : Booking) :
  Forall (fun r => oid_ok (_id r)) (rooms db) ->
  fst (run (check_availability payload) db) = Ok offered ->
  In out offered ->
  room_id booking = id out ->
  check_in booking = AvailabilityRequest.check_in payload ->
  check_out booking = AvailabilityRequest.check_out payload ->
  exists booking_id db', run (create_booking booking) db = (Ok booking_id, db').
Proof.
  intros Hids Hrun Hin Hroom Hci Hco.
  apply offered_rooms in Hrun. destruct Hrun as [_ ->].
  apply in_map_iff in Hin. destruct Hin as (r & <- & Hr).
  apply filter_In in Hr. destruct Hr as [Hr Hsel].
  apply andb_true_iff in Hsel. destruct Hsel as [_ Hfree]. apply negb_true_iff in Hfree.
  cbn [to_out id] in Hroom.
  rewrite create_booking_decides, Hroom, Hci, Hco.
  rewrite ObjectId_round_trip by (rewrite Forall_forall in Hids; now apply Hids).
  rewrite (room_known_in db r Hr), Hfree. now do 2 eexists.
Qed.

Lemma offered_room_can_be_booked_witness :
  exists booking_id db', run (create_booking booking_1) db_A = (Ok booking_id, db').
Proof.
  apply (offered_room_can_be_booked db_A query_3
           [to_out (Build_Stored {| binary := 1 |} room_A)]
           (to_out (Build_Stored {| binary := 1 |} room_A)) booking_1).
  - repeat constructor; cbn; lia.
  - reflexivity.
  - now left.
  - reflexivity.
  - reflexivity.
  - reflexivity.
Defined.

(** X8. Once a request that is not cancelled is served, the availability
    query offers no room under its [room_id] for an interval that overlaps
    its nights. *)
Theorem booked_room_is_not_offered
  (db : Database) (booking : Booking) (booking_id : string) (db' : Database)
  (payload : AvailabilityRequest.t) (offered : list RoomOut) :
  run (create_booking booking) db = (Ok booking_id, db') ->
  status booking <> "cancelled" ->
  overlaps (check_in booking) (check_out booking)
           (AvailabilityRequest.check_in payload) (AvailabilityRequest.check_out payload)
  = true ->
  fst (run (check_availability payload) db') = Ok offered ->
  forall out, In out offered -> id out <> room_id booking.
Proof.
  intros Hrun Hstatus Hov Hoff out Hin Heq.
  apply create_booking_served in Hrun. destruct Hrun as (_ & _ & _ & ->).
  apply offered_rooms in Hoff. destruct Hoff as [_ ->].
  apply in_map_iff in Hin. destruct Hin as (r & <- & Hr).
  apply filter_In in Hr. destruct Hr as [_ Hsel].
  apply andb_true_iff in Hsel. destruct Hsel as [_ Hfree]. apply negb_true_iff in Hfree.
  cbn [to_out id] in Heq. rewrite Heq in Hfree. cbn [bookings] in Hfree.
  unfold has_conflict in Hfree. rewrite existsb_app in Hfree.
  apply orb_false_iff in Hfree. destruct Hfree as [_ Hfree]. cbn [existsb doc] in Hfree.
  rewrite orb_false_r in Hfree.
  assert (B : blocks (room_id booking) (AvailabilityRequest.check_in payload)
                (AvailabilityRequest.check_out payload) booking = true).
  { apply blocks_iff. unfold overlaps in Hov. apply andb_true_iff in Hov. tauto. }
  congruence.
Qed.

Lemma booked_room_is_not_offered_witness :
  fst (run (check_availability query_3) (snd (run (create_booking booking_1) db_AA)))
  = Ok [to_out (Build_Stored {| binary := 2 |} room_A)]
  /\ id (to_out (Build_Stored {| binary := 2 |} room_A)) <> room_id booking_1.
Proof.
  split; [ reflexivity | ].
  apply (booked_room_is_not_offered db_AA booking_1 "000000000000000000000003"
           (snd (run (create_booking booking_1) db_AA)) query_3
           [to_out (Build_Stored {| binary := 2 |} room_A)]);
    [ reflexivity | discriminate | reflexivity | reflexivity | now left ].
Defined.

(* ================================================================== *)
(** ** Availability: narrower requests and guest counts *)

Lemma toordinal_leb (a b : date) : date_leb a b = true <-> toordinal a <= toordinal b.
Proof.
  unfold date_leb. rewrite <- toordinal_compare.
  destruct (Z.compare_spec (toordinal a) (toordinal b)); split; intros; try lia;
    discriminate.
Qed.

Lemma overlaps_wider (a b start stop start' stop' : date) :
  date_leb start start' = true -> date_leb stop' stop = true ->
  overlaps a b start' stop' = true -> overlaps a b start stop = true.
Proof.
  unfold overlaps. rewrite !andb_true_iff, !toordinal_ltb, !toordinal_leb. lia.
Qed.

Lemma has_conflict_wider (ledger : list (Stored Booking)) (room : string)
  (start stop start' stop' : date) :
  date_leb start start' = true -> date_leb stop' stop = true ->
  has_conflict ledger room start stop = false ->
  has_conflict ledger room start' stop' = false.
Proof.
  intros Hs He Hfree.
  destruct (has_conflict ledger room start' stop') eqn:Hc; [ | reflexivity ].
  apply has_conflict_iff in Hc. destruct Hc as (e & Hin & Hr & Hst & Hov).
  assert (has_conflict ledger room start stop = true); [ | congruence ].
  apply has_conflict_iff. exists e. repeat split; try assumption.
  now apply (overlaps_wider _ _ start stop start' stop').
Qed.

(** X9. Asking for an interval inside another, or for fewer guests, never
    loses a room: what the availability query offers for the wider request
    it offers for the narrower one. *)
Theorem narrower_request_offers_more (db : Database) (wide narrow : AvailabilityRequest.t) :
  date_leb (AvailabilityRequest.check_in wide) (AvailabilityRequest.check_in narrow) = true ->
  date_ltb (AvailabilityRequest.check_in narrow) (AvailabilityRequest.check_out narrow)
  = true ->
  date_leb (AvailabilityRequest.check_out narrow) (AvailabilityRequest.check_out wide)
  = true ->
  AvailabilityRequest.guests narrow <= AvailabilityRequest.guests wide ->
  exists offered_wide offered_narrow,
    fst (run (check_availability wide) db) = Ok offered_wide
    /\ fst (run (check_availability narrow) db) = Ok offered_narrow
    /\ incl offered_wide offered_narrow.
Proof.
  intros Hs Hn He Hg.
  assert (Hw : date_ltb (AvailabilityRequest.check_in wide)
                        (AvailabilityRequest.check_out wide) = true).
  { apply toordinal_ltb. apply toordinal_ltb in Hn. apply toordinal_leb in Hs, He. lia. }
  rewrite !check_availability_run, !date_leb_ltb, Hw, Hn. cbn [negb fst].
  do 2 eexists. split; [ reflexivity | ]. split; [ reflexivity | ].
  intros out Hin. apply in_map_iff in Hin. destruct Hin as (r & <- & Hr).
  apply in_map. unfold find_available in *. apply filter_In in Hr. destruct Hr as [Hr Hsel].
  apply filter_In. split; [ exact Hr | ].
  apply andb_true_iff in Hsel. destruct Hsel as [Hcap Hfree].
  apply negb_true_iff in Hfree. apply Z.leb_le in Hcap.
  apply andb_true_iff. split; [ apply Z.leb_le; lia | ].
  apply negb_true_iff.
  exact (has_conflict_wider _ _ _ _ _ _ Hs He Hfree).
Qed.

Lemma narrower_request_offers_more_witness :
  exists offered_wide offered_narrow,
    fst (run (check_availability query_3) db_A) = Ok offered_wide
    /\ fst (run (check_availability query_3_narrow) db_A) = Ok offered_narrow
    /\ incl offered_wide offered_narrow.
Proof.
  apply (narrower_request_offers_more db_A query_3 query_3_narrow);
    [ reflexivity | reflexivity | reflexivity | cbn; lia ].
Defined.

(** X10. The guest count of an availability query has no bounds of its
    own. With every room within the bounds of its schema, a query for more
    than twelve guests is answered with no room, and a query for one guest
    or fewer with every room that has no conflict. *)
Theorem guest_count_bounds (db : Database) (payload : AvailabilityRequest.t) :
  Forall (fun r => Room_fields_ok (doc r) = true) (rooms db) ->
  date_ltb (AvailabilityRequest.check_in payload) (AvailabilityRequest.check_out payload)
  = true ->
  (12 < AvailabilityRequest.guests payload ->
   fst (run (check_availability payload) db) = Ok [])
  /\ (AvailabilityRequest.guests payload <= 1 ->
      fst (run (check_availability payload) db)
      = Ok (map to_out
              (filter (fun r => negb (has_conflict (bookings db) (ObjectId_str (_id r))
                                        (AvailabilityRequest.check_in payload)
                                        (AvailabilityRequest.check_out payload)))
                      (rooms db)))).
Proof.
  intros Hok Hvalid. rewrite Forall_forall in Hok.
  rewrite check_availability_run, date_leb_ltb, Hvalid. cbn [negb fst].
  unfold find_available.
  assert (Hcap : forall r, In r (rooms db) -> 1 <= capacity (doc r) <= 12).
  { intros r Hr. specialize (Hok r Hr). unfold Room_fields_ok in Hok.
    repeat (apply andb_prop in Hok; destruct Hok as [Hok ?]). lia. }
  split; intros Hg.
  - replace (@nil RoomOut)
      with (map (@to_out Room) (filter (fun _ : Stored Room => false) (rooms db)))
      by now rewrite filter_false.
    apply f_equal, f_equal, filter_ext_in. intros r Hr. specialize (Hcap r Hr).
    replace (AvailabilityRequest.guests payload <=? capacity (doc r)) with false; [ reflexivity | ].
    symmetry. apply Z.leb_gt. lia.
  - apply f_equal, f_equal, filter_ext_in. intros r Hr. specialize (Hcap r Hr).
    replace (AvailabilityRequest.guests payload <=? capacity (doc r)) with true; [ reflexivity | ].
    symmetry. apply Z.leb_le. lia.
Qed.

Lemma guest_count_bounds_witness :
  fst (run (check_availability query_13_guests) db_A) = Ok []
  /\ fst (run (check_availability query_3_narrow) db_A)
     = Ok [to_out (Build_Stored {| binary := 1 |} room_A)].
Proof.
  split.
  - apply (proj1 (guest_count_bounds db_A query_13_guests
                    ltac:(repeat constructor) eq_refl)). reflexivity.
  - apply (proj2 (guest_count_bounds db_A query_3_narrow
                    ltac:(repeat constructor) eq_refl)). cbn. lia.
Defined.

(* ================================================================== *)
(** ** Requests in sequence *)

Lemma serve_effect (req : Request) (db : Database) :
  serve req db = db
  \/ (exists room, req = CreateRoom room
       /\ serve req db = {| rooms := rooms db ++ [Build_Stored {| binary := next_oid db |} room];
                            bookings := bookings db;
                            next_oid := next_oid db + 1 |})
  \/ (exists booking, req = CreateBooking booking
       /\ has_conflict (bookings db) (room_id booking) (check_in booking)
            (check_out booking) = false
       /\ serve req db = {| rooms := rooms db;
                            bookings := bookings db
                                        ++ [Build_Stored {| binary := next_oid db |} booking];
                            next_oid := next_oid db + 1 |}).
Proof.
  destruct req as [room | | payload | booking | email]; cbn [serve].
  - right. left. now exists room.
  - left. apply read_only_run, list_rooms_read_only.
  - left. apply read_only_run, check_availability_read_only.
  - destruct (run (create_booking booking) db) as [[bid | e] db'] eqn:Hrun; cbn [snd].
    + right. right. exists booking. apply create_booking_served in Hrun. tauto.
    + left. now apply create_booking_failed in Hrun.
  - left. apply read_only_run, list_bookings_read_only.
Qed.

(** X11. Requests of any kind served one after the other, whatever each
    is answered, keep a ledger free of double bookings free of them. *)
Theorem api_keeps_ledger_sound (db : Database) (reqs : list Request) :
  no_double_booking (bookings db) ->
  no_double_booking (bookings (serve_all reqs db)).
Proof.
  revert db. induction reqs as [ | req rest IH]; intros db Hinv; [ exact Hinv | ].
  cbn [serve_all]. apply IH.
  destruct (serve_effect req db) as [-> | [(room & _ & ->) | (booking & _ & Hfree & ->)]];
    cbn [bookings]; try exact Hinv.
  apply ordered_pairs_snoc; [ exact Hinv | ].
  intros e He. cbn [doc]. now apply no_conflict_no_double_booking with (ledger := bookings db).
Qed.

Lemma api_keeps_ledger_sound_witness :
  no_double_booking
    (bookings (serve_all [CreateBooking booking_1; ListRooms; CreateBooking booking_1b;
                          CheckAvailability query_3; CreateBooking booking_2] db_A))
  /\ map doc (bookings (serve_all [CreateBooking booking_1; ListRooms;
                                   CreateBooking booking_1b; CheckAvailability query_3;
                                   CreateBooking booking_2] db_A))
     = [booking_1; booking_2].
Proof.
  split; [ | reflexivity ].
  apply (api_keeps_ledger_sound db_A). apply FOP_nil.
Defined.

(** X12. Requests served one after the other only append: the rooms and
    the bookings stored before are all there, in their order and as they
    were, followed by rooms and bookings that requests of the sequence
    asked for. *)
Theorem api_only_appends (db : Database) (reqs : list Request) :
  exists new_rooms new_bookings,
    rooms (serve_all reqs db) = rooms db ++ new_rooms
    /\ bookings (serve_all reqs db) = bookings db ++ new_bookings
    /\ Forall (fun r => In (CreateRoom (doc r)) reqs) new_rooms
    /\ Forall (fun b => In (CreateBooking (doc b)) reqs) new_bookings.
Proof.
  revert db. induction reqs as [ | req rest IH]; intros db.
  - exists [], []. cbn [serve_all]. rewrite !app_nil_r. repeat split; constructor.
  - cbn [serve_all]. destruct (IH (serve req db)) as (nr & nb & Hr & Hb & Fr & Fb).
    assert (Fr' : Forall (fun r => In (CreateRoom (doc r)) (req :: rest)) nr).
    { eapply Forall_impl; [ | exact Fr ]. intros r H. now right. }
    assert (Fb' : Forall (fun b => In (CreateBooking (doc b)) (req :: rest)) nb).
    { eapply Forall_impl; [ | exact Fb ]. intros b H. now right. }
    destruct (serve_effect req db) as [E | [(room & -> & E) | (booking & -> & _ & E)]];
      rewrite E in Hr, Hb; cbn [rooms bookings] in Hr, Hb; rewrite ?E.
    + now exists nr, nb.
    + exists (Build_Stored {| binary := next_oid db |} room :: nr), nb.
      rewrite Hr, Hb, <- app_assoc. repeat split; try assumption.
      constructor; [ now left | exact Fr' ].
    + exists nr, (Build_Stored {| binary := next_oid db |} booking :: nb).
      rewrite Hr, Hb, <- app_assoc. repeat split; try assumption.
      constructor; [ now left | exact Fb' ].
Qed.

(* ================================================================== *)
(** ** Reads in flight *)

Lemma step_read_only {R : Type} (p : Prog R) (db : Database) :
  read_only p -> snd (step p db) = db /\ read_only (fst (step p db)).
Proof.
  intros H. destruct H; cbn [step fst snd]; split; try reflexivity;
    try constructor; auto.
Qed.

Lemma race_beside_reader {R S : Type} (schedule : list bool) :
  forall (p1 : Prog R) (p2 : Prog S) (db : Database),
    read_only p1 ->
    (snd (fst (race schedule p1 p2 db)), snd (race schedule p1 p2 db))
    = steps (count_occ bool_dec schedule false) p2 db.
Proof.
  induction schedule as [ | [ | ] schedule IH]; intros p1 p2 db H; cbn [race count_occ].
  - reflexivity.
  - destruct (step_read_only p1 db H) as [Hdb Hro].
    destruct (step p1 db) as [p1' db'] eqn:E. cbn [fst snd] in Hdb, Hro. subst db'.
    destruct (bool_dec true false); [ discriminate | ]. now apply IH.
  - destruct (bool_dec false false) as [ _ | N ]; [ | now elim N ].
    cbn [steps]. destruct (step p2 db) as [p2' db']. now apply IH.
Qed.

(** X13. A request in flight beside [list_rooms], [list_bookings] or
    [check_availability] does, under every schedule, what it does alone in
    as many store operations. *)
Theorem reads_do_not_disturb {S : Type} (schedule : list bool) (p : Prog S)
  (db : Database) (email : option string) (payload : AvailabilityRequest.t) :
  (snd (fst (race schedule list_rooms p db)), snd (race schedule list_rooms p db))
  = steps (count_occ bool_dec schedule false) p db
  /\ (snd (fst (race schedule (list_bookings email) p db)),
      snd (race schedule (list_bookings email) p db))
     = steps (count_occ bool_dec schedule false) p db
  /\ (snd (fst (race schedule (check_availability payload) p db)),
      snd (race schedule (check_availability payload) p db))
     = steps (count_occ bool_dec schedule false) p db.
Proof.
  split; [ | split ]; apply race_beside_reader.
  - apply list_rooms_read_only.
  - apply list_bookings_read_only.
  - apply check_availability_read_only.
Qed.

(* ================================================================== *)
(** ** Bookings of different rooms in flight *)

Lemma create_booking_first (booking : Booking) :
  create_booking booking
  = match ObjectId_of_str (room_id booking) with
    | None => Raise InvalidId
    | Some oid =>
        FindOne coll_room (f_eq "_id" (VOid oid))
          (fun room => match room with
                       | None => Raise NotFound
                       | Some _ => check_conflict booking
                       end)
    end.
Proof.
  unfold create_booking, _to_id.
  destruct (ObjectId_of_str (room_id booking)); reflexivity.
Qed.

Lemma step_create_booking (booking : Booking) (now : Database) :
  step (create_booking booking) now
  = (match ObjectId_of_str (room_id booking) with
     | None => Raise InvalidId
     | Some oid => if room_known now oid then check_conflict booking else Raise NotFound
     end, now).
Proof.
  rewrite create_booking_first.
  destruct (ObjectId_of_str (room_id booking)) as [oid | ]; [ | reflexivity ].
  cbn [step]. rewrite <- room_known_lookup.
  destruct (find_one coll_room (f_eq "_id" (VOid oid)) now); reflexivity.
Qed.

Lemma step_check_conflict (booking : Booking) (now : Database) :
  step (check_conflict booking) now
  = (if has_conflict (bookings now) (room_id booking) (check_in booking) (check_out booking)
     then Raise Conflict else insert_booking booking, now).
Proof.
  unfold check_conflict. cbn [bind step]. rewrite <- conflict_lookup.
  match goal with
  | |- context [find_one coll_booking ?q now] => destruct (find_one coll_booking q now)
  end; reflexivity.
Qed.

Lemma step_insert_booking (booking : Booking) (now : Database) :
  step (insert_booking booking) now
  = (Return (ObjectId_str {| binary := next_oid now |}),
     {| rooms := rooms now;
        bookings := bookings now ++ [Build_Stored {| binary := next_oid now |} booking];
        next_oid := next_oid now + 1 |}).
Proof. reflexivity. Qed.

Lemma room_known_same (db now : Database) (oid : ObjectId) :
  rooms now = rooms db -> room_known now oid = room_known db oid.
Proof. unfold room_known. now intros ->. Qed.

Lemma step_finished {R : Type} (o : Outcome R) (db : Database) :
  step (finished o) db = (finished o, db).
Proof. destruct o; reflexivity. Qed.

(** One store operation of a request on track: it stays on track, one
    operation further, and the store is as it was or has the booking of the
    request appended, which nothing blocked. *)
Lemma on_track_step (booking : Booking) (db : Database) (n : nat)
  (p : Prog string) (now : Database) :
  rooms now = rooms db ->
  on_track booking db n p now ->
  on_track booking db (S n) (fst (step p now)) (snd (step p now))
  /\ (snd (step p now) = now
      \/ (has_conflict (bookings now) (room_id booking) (check_in booking)
            (check_out booking) = false
          /\ rooms (snd (step p now)) = rooms now
          /\ exists oid, bookings (snd (step p now))
                         = bookings now ++ [Build_Stored oid booking])).
Proof.
  intros Hrooms [(o & -> & Hv) | (Hsame & Hphase)].
  - rewrite step_finished. cbn [fst snd]. split; [ left; now exists o | now left ].
  - pose proof (create_booking_decides db booking) as Halone.
    destruct Hphase as [(-> & ->) | [(-> & -> & oid & Hoid & Hknown)
                                    | (-> & -> & bid & Hok)]].
    + rewrite step_create_booking. cbn [fst snd]. split; [ | now left ].
      destruct (ObjectId_of_str (room_id booking)) as [oid | ] eqn:Hoid.
      * rewrite (room_known_same db now oid Hrooms).
        destruct (room_known db oid) eqn:Hknown.
        -- right. split; [ exact Hsame | ]. right. left. repeat split. now exists oid.
        -- left. exists (Failed NotFound). split; [ reflexivity | ].
           now rewrite Halone.
      * left. exists (Failed InvalidId). split; [ reflexivity | ]. now rewrite Halone.
    + rewrite step_check_conflict. cbn [fst snd]. split; [ | now left ].
      rewrite Hsame. rewrite Hoid, Hknown in Halone.
      destruct (has_conflict (bookings db) (room_id booking) (check_in booking)
                  (check_out booking)).
      * left. exists (Failed Conflict). split; [ reflexivity | ]. now rewrite Halone.
      * right. split; [ exact Hsame | ]. right. right. repeat split.
        rewrite Halone. now eexists.
    + rewrite step_insert_booking. cbn [fst snd]. split.
      * left. exists (Ok (ObjectId_str {| binary := next_oid now |})).
        split; [ reflexivity | ]. now rewrite Hok.
      * right. split; [ | split; [ reflexivity | now eexists ] ].
        rewrite Hsame. rewrite Halone in Hok.
        destruct (ObjectId_of_str (room_id booking)) as [oid | ]; [ | discriminate ].
        destruct (room_known db oid); [ | discriminate ].
        destruct (has_conflict (bookings db) (room_id booking) (check_in booking)
                    (check_out booking)); [ discriminate | reflexivity ].
Qed.

(** The other request stays on track when a booking of another room is
    appended. *)
Lemma on_track_beside (booking other : Booking) (db : Database) (n : nat)
  (p : Prog string) (now now' : Database) (oid : ObjectId) :
  room_id other <> room_id booking ->
  bookings now' = bookings now ++ [Build_Stored oid other] ->
  on_track booking db n p now -> on_track booking db n p now'.
Proof.
  intros Hdiff Hb [H | (Hsame & Hphase)]; [ now left | right ].
  split; [ | exact Hphase ].
  intros start stop. rewrite <- Hsame, Hb. unfold has_conflict.
  rewrite existsb_app. cbn [existsb doc]. unfold blocks at 2.
  apply String.eqb_neq in Hdiff. rewrite Hdiff. cbn [andb orb]. now rewrite orb_false_r.
Qed.

Lemma appended_keeps_invariant (ledger : list (Stored Booking)) (oid : ObjectId)
  (booking : Booking) :
  has_conflict ledger (room_id booking) (check_in booking) (check_out booking) = false ->
  no_double_booking ledger ->
  no_double_booking (ledger ++ [Build_Stored oid booking]).
Proof.
  intros Hfree Hinv. apply ordered_pairs_snoc; [ exact Hinv | ].
  intros e He. cbn [doc]. now apply no_conflict_no_double_booking with (ledger := ledger).
Qed.

Lemma on_track_over (booking : Booking) (db : Database) (n : nat)
  (p : Prog string) (now : Database) :
  (3 <= n)%nat -> on_track booking db n p now ->
  exists o, p = finished o /\ same_verdict o (fst (run (create_booking booking) db)).
Proof.
  intros Hn [H | (_ & [(E & _) | [(E & _) | (E & _)]])]; [ exact H | lia | lia | lia ].
Qed.

(** Two requests for different room ids, on track, stay on track through
    every schedule. *)
Lemma interleave_on_track (db : Database) (b1 b2 : Booking) (schedule : list bool) :
  room_id b1 <> room_id b2 ->
  forall (n1 n2 : nat) (p1 p2 : Prog string) (now : Database),
    rooms now = rooms db ->
    (no_double_booking (bookings db) -> no_double_booking (bookings now)) ->
    on_track b1 db n1 p1 now ->
    on_track b2 db n2 p2 now ->
    rooms (snd (interleave schedule p1 p2 now)) = rooms db
    /\ (no_double_booking (bookings db) ->
        no_double_booking (bookings (snd (interleave schedule p1 p2 now))))
    /\ on_track b1 db (n1 + count_occ bool_dec schedule true)
         (fst (fst (interleave schedule p1 p2 now))) (snd (interleave schedule p1 p2 now))
    /\ on_track b2 db (n2 + count_occ bool_dec schedule false)
         (snd (fst (interleave schedule p1 p2 now))) (snd (interleave schedule p1 p2 now)).
Proof.
  intros Hdiff.
  induction schedule as [ | [ | ] schedule IH]; intros n1 n2 p1 p2 now Hrooms Hinv T1 T2;
    cbn [interleave count_occ].
  - rewrite !Nat.add_0_r. now repeat split.
  - destruct (bool_dec true true) as [ _ | N ]; [ | now elim N ].
    destruct (bool_dec true false); [ discriminate | ].
    destruct (on_track_step b1 db n1 p1 now Hrooms T1) as [T1' Hstore].
    destruct (step p1 now) as [p1' now'] eqn:E. cbn [fst snd] in T1', Hstore.
    rewrite Nat.add_succ_r, <- Nat.add_succ_l.
    destruct Hstore as [-> | (Hfree & Hr & oid & Hb)].
    + now apply IH.
    + apply IH; [ congruence | | exact T1' | ].
      * intros H. rewrite Hb. apply appended_keeps_invariant; auto.
      * now apply (on_track_beside b2 b1 db n2 p2 now now' oid).
  - destruct (bool_dec false false) as [ _ | N ]; [ | now elim N ].
    destruct (bool_dec false true); [ discriminate | ].
    destruct (on_track_step b2 db n2 p2 now Hrooms T2) as [T2' Hstore].
    destruct (step p2 now) as [p2' now'] eqn:E. cbn [fst snd] in T2', Hstore.
    rewrite Nat.add_succ_r, <- Nat.add_succ_l.
    destruct Hstore as [-> | (Hfree & Hr & oid & Hb)].
    + now apply IH.
    + apply IH; [ congruence | | | exact T2' ].
      * intros H. rewrite Hb. apply appended_keeps_invariant; auto.
      * apply (on_track_beside b1 b2 db n1 p1 now now' oid); auto.
Qed.

(** X14. Two booking requests for different room ids in flight together,
    under every schedule: the rooms are untouched, a ledger free of double
    bookings stays so, and each request, once it has had its three store
    operations, is over with the verdict it has when served alone. *)
Theorem different_rooms_do_not_interfere
  (db : Database) (b1 b2 : Booking) (schedule : list bool) :
  room_id b1 <> room_id b2 ->
  rooms (snd (interleave schedule (create_booking b1) (create_booking b2) db)) = rooms db
  /\ (no_double_booking (bookings db) ->
      no_double_booking
        (bookings (snd (interleave schedule (create_booking b1) (create_booking b2) db))))
  /\ ((3 <= count_occ bool_dec schedule true)%nat ->
      exists o,
        fst (fst (interleave schedule (create_booking b1) (create_booking b2) db))
        = finished o
        /\ same_verdict o (fst (run (create_booking b1) db)))
  /\ ((3 <= count_occ bool_dec schedule false)%nat ->
      exists o,
        snd (fst (interleave schedule (create_booking b1) (create_booking b2) db))
        = finished o
        /\ same_verdict o (fst (run (create_booking b2) db))).
Proof.
  intros Hdiff.
  destruct (interleave_on_track db b1 b2 schedule Hdiff 0 0
              (create_booking b1) (create_booking b2) db eq_refl (fun H => H))
    as (Hr & Hinv & T1 & T2).
  - right. split; [ reflexivity | now left ].
  - right. split; [ reflexivity | now left ].
  - cbn [Nat.add] in T1, T2. repeat split; try assumption.
    + intros Hn. exact (on_track_over _ _ _ _ _ Hn T1).
    + intros Hn. exact (on_track_over _ _ _ _ _ Hn T2).
Qed.

Lemma different_rooms_do_not_interfere_witness :
  (exists o,
      fst (fst (interleave alternating (create_booking booking_1)
                  (create_booking booking_other_room) db_AA)) = finished o
      /\ same_verdict o (fst (run (create_booking booking_1) db_AA)))
  /\ map doc (bookings (snd (interleave alternating (create_booking booking_1)
                               (create_booking booking_other_room) db_AA)))
     = [booking_1; booking_other_room].
Proof.
  split; [ | reflexivity ].
  apply (proj1 (proj2 (proj2 (different_rooms_do_not_interfere db_AA booking_1
                                booking_other_room alternating
                                ltac:(discriminate))))).
  cbn. lia.
Defined.

(* ================================================================== *)
(** ** The report of [test_database] *)

(** X15. The report of [test_database] says of [DATABASE_URL] and
    [DATABASE_NAME] only whether they are set: two pairs of non-empty
    settings give the same report. *)
Theorem test_database_hides_settings
  (db : option (list text + text)) (url url' name name' : text) :
  url <> [] -> url' <> [] -> name <> [] -> name' <> [] ->
  test_database db (Some url) (Some name) = test_database db (Some url') (Some name').
Proof.
  intros Hu Hu' Hn Hn'.
  destruct url, url', name, name'; try contradiction. reflexivity.
Qed.

Lemma test_database_hides_settings_witness :
  test_database (Some (inl [plain "room"])) (Some (plain "mongodb://one")) (Some (plain "a"))
  = test_database (Some (inl [plain "room"])) (Some (plain "mongodb://two")) (Some (plain "b")).
Proof.
  apply test_database_hides_settings; discriminate.
Defined.

(** X16. The report of [test_database] names at most ten collections, the
    first ten listed; its [database] text has at most 104 characters, of
    which at most 80 of an exception's text; and it says [Connected]
    exactly when the collections could be listed. *)
Theorem test_database_report_is_bounded
  (db : option (list text + text)) (DATABASE_URL DATABASE_NAME : option text) :
  (List.length (collections (test_database db DATABASE_URL DATABASE_NAME)) <= 10)%nat
  /\ (List.length (database (test_database db DATABASE_URL DATABASE_NAME)) <= 104)%nat
  /\ (connection_status (test_database db DATABASE_URL DATABASE_NAME) = plain "Connected"
      <-> exists names, db = Some (inl names))
  /\ (forall names, db = Some (inl names) ->
        collections (test_database db DATABASE_URL DATABASE_NAME) = firstn 10 names).
Proof.
  destruct db as [[names | e] | ]; cbn [test_database set_database set_database_url
    set_database_name set_connection_status set_collections collections database
    connection_status].
  - split; [ apply firstn_le_length | ]. split; [ cbn; lia | ].
    split; [ split; [ now exists names | reflexivity ] | ].
    intros names' H. now injection H as <-.
  - split; [ cbn; lia | ]. split.
    + rewrite !length_app. pose proof (firstn_le_length 80 e). cbn. cbn in H. lia.
    + split; [ split; [ discriminate | intros (n & H); discriminate ] | discriminate ].
  - split; [ cbn; lia | ]. split; [ cbn; lia | ].
    split; [ split; [ discriminate | intros (n & H); discriminate ] | discriminate ].
Qed.

(* ================================================================== *)
(** ** Room ids that are no identity *)

Lemma hex_is_no_space (c : ascii) : hex_value c <> None -> is_space c = false.
Proof.
  destruct c as [[] [] [] [] [] [] [] []]; cbn; intros H; try reflexivity; now elim H.
Qed.

Lemma fromhex_of_pairs (s : string) :
  hex_pairs s -> forall count acc, fromhex s count acc <> None.
Proof.
  induction 1 as [ | c s Hc _ IH | c c' s Hc Hc' _ IH ]; intros count acc; cbn [fromhex].
  - discriminate.
  - rewrite Hc. apply IH.
  - rewrite (hex_is_no_space c Hc).
    destruct (hex_value c); [ | now elim Hc ].
    destruct (hex_value c'); [ apply IH | now elim Hc' ].
Qed.

Lemma pairs_of_fromhex (n : nat) :
  forall s, (String.length s <= n)%nat ->
            forall count acc, fromhex s count acc <> None -> hex_pairs s.
Proof.
  induction n as [ | n IH]; intros s Hlen count acc H.
  - destruct s; [ constructor | cbn in Hlen; lia ].
  - destruct s as [ | c s]; [ constructor | ].
    cbn [fromhex] in H. cbn [String.length] in Hlen.
    destruct (is_space c) eqn:Hs.
    + apply hex_pairs_blank; [ exact Hs | ]. apply (IH s ltac:(lia) count acc H).
    + destruct (hex_value c) as [top | ] eqn:Hc; [ | now elim H ].
      destruct s as [ | c' s]; [ now elim H | ].
      destruct (hex_value c') as [bot | ] eqn:Hc'; [ | now elim H ].
      cbn [String.length] in Hlen.
      apply hex_pairs_byte; [ congruence | congruence | ].
      apply (IH s ltac:(lia) _ _ H).
Qed.

(** [ObjectId] refuses a text exactly when it does not have 24 characters
    or [bytes.fromhex] cannot read it. *)
Lemma ObjectId_of_str_none (s : string) :
  ObjectId_of_str s = None <-> String.length s <> 24%nat \/ ~ hex_pairs s.
Proof.
  unfold ObjectId_of_str.
  destruct (Nat.eqb_spec (String.length s) 24) as [E | E].
  - destruct (fromhex s 0 0) as [[count value] | ] eqn:F.
    + split; [ discriminate | ]. intros [H | H]; [ now elim H | ].
      elim H. apply (pairs_of_fromhex 24 s ltac:(lia) 0%nat 0). congruence.
    + split; [ | reflexivity ]. intros _. right. intros H.
      now apply (fromhex_of_pairs s H 0%nat 0).
  - split; [ now left | reflexivity ].
Qed.

(** X2. The decisions of [create_booking], in their order. A [room_id]
    that [ObjectId] does not take, which is one that does not have 24
    characters or is not made of bytes of two hexadecimal digits with
    whitespace around them, is refused with [InvalidId]; else an identity no
    room has, with [NotFound]; else a non-cancelled overlapping booking of
    the room id, with [Conflict]; else the booking is appended under a fresh
    identity, whose text is answered. Every refusal leaves the store as it
    was. *)
Theorem create_booking_outcome (db : Database) (booking : Booking) :
  run (create_booking booking) db =
  match ObjectId_of_str (room_id booking) with
  | None => (Failed InvalidId, db)
  | Some oid =>
      if room_known db oid
      then if has_conflict (bookings db) (room_id booking)
                (check_in booking) (check_out booking)
           then (Failed Conflict, db)
           else (Ok (ObjectId_str {| binary := next_oid db |}),
                 {| rooms := rooms db;
                    bookings := bookings db
                                ++ [Build_Stored {| binary := next_oid db |} booking];
                    next_oid := next_oid db + 1 |})
      else (Failed NotFound, db)
  end
  /\ (ObjectId_of_str (room_id booking) = None
      <-> String.length (room_id booking) <> 24%nat \/ ~ hex_pairs (room_id booking)).
Proof. split; [ apply create_booking_decides | apply ObjectId_of_str_none ]. Qed.

(** X17. [create_booking] answers [InvalidId], the store as it was,
    exactly when [room_id] does not have 24 characters or is not made of
    bytes of two hexadecimal digits with whitespace around them. A text of
    24 characters with blanks among its bytes is an identity of fewer than
    twelve bytes: it is looked up, and not refused for its form. *)
Theorem malformed_room_id_is_refused (db : Database) (booking : Booking) :
  run (create_booking booking) db = (Failed InvalidId, db)
  <-> String.length (room_id booking) <> 24%nat \/ ~ hex_pairs (room_id booking).
Proof.
  rewrite <- ObjectId_of_str_none, create_booking_decides.
  destruct (ObjectId_of_str (room_id booking)) as [oid | ]; [ | now split ].
  split; [ | discriminate ].
  destruct (room_known db oid);
    [ destruct (has_conflict (bookings db) (room_id booking) (check_in booking)
                  (check_out booking)) | ]; discriminate.
Qed.

(** Room ids of 24 characters with blanks among their bytes, on the store
    of scenario 1: they are identities of eight and of eleven bytes, no
    room has them, and the answer is [NotFound]. A blank inside a byte is
    refused. *)
Example blank_room_id_is_looked_up :
  fst (run (create_booking (request "00 00 00 00 00 00 00 00 " jun01 jun05 2 "confirmed"))
         db_A) = Failed NotFound
  /\ fst (run (create_booking (request " 0000000000000000000001 " jun01 jun05 2 "confirmed"))
            db_A) = Failed NotFound
  /\ fst (run (create_booking (request "0 0000000000000000000001" jun01 jun05 2 "confirmed"))
            db_A) = Failed InvalidId.
Proof. repeat split. Qed.

(* ================================================================== *)
(** ** Two requests for one room, under every schedule *)

Lemma checks_first_prefix (schedule : list bool) :
  forall n1 n2,
    checks_first_from schedule n1 n2 = true
    <-> exists before after,
          schedule = before ++ after
          /\ (n1 + count_occ bool_dec before true = 2)%nat
          /\ (n2 + count_occ bool_dec before false = 2)%nat.
Proof.
  induction schedule as [ | who schedule IH]; intros n1 n2; cbn [checks_first_from].
  - rewrite orb_false_r, andb_true_iff, !Nat.eqb_eq. split.
    + intros [H1 H2]. exists [], []. cbn. repeat split; lia.
    + intros (before & after & E & H1 & H2).
      symmetry in E. apply app_eq_nil in E. destruct E as [-> ->]. cbn in *. lia.
  - rewrite orb_true_iff, andb_true_iff, !Nat.eqb_eq. split.
    + intros [[H1 H2] | H].
      * exists [], (who :: schedule). cbn. repeat split; lia.
      * destruct who; apply IH in H; destruct H as (before & after & -> & H1 & H2).
        -- exists (true :: before), after. cbn [app count_occ].
           destruct (bool_dec true true) as [ _ | N ]; [ | now elim N ].
           destruct (bool_dec true false); [ discriminate | ]. repeat split; lia.
        -- exists (false :: before), after. cbn [app count_occ].
           destruct (bool_dec false false) as [ _ | N ]; [ | now elim N ].
           destruct (bool_dec false true); [ discriminate | ]. repeat split; lia.
    + intros (before & after & E & H1 & H2).
      destruct before as [ | w before].
      * left. cbn in H1, H2. lia.
      * right. cbn [app] in E. injection E as E1 E2. subst w schedule.
        cbn [count_occ] in H1, H2.
        destruct who.
        -- destruct (bool_dec true true) as [ _ | N ]; [ | now elim N ].
           destruct (bool_dec true false); [ discriminate | ].
           apply IH. exists before, after. repeat split; lia.
        -- destruct (bool_dec false false) as [ _ | N ]; [ | now elim N ].
           destruct (bool_dec false true); [ discriminate | ].
           apply IH. exists before, after. repeat split; lia.
Qed.

Lemma checks_come_first_iff (schedule : list bool) :
  checks_come_first schedule <-> checks_first_from schedule 0 0 = true.
Proof. rewrite checks_first_prefix. reflexivity. Qed.


Lemma checks_first_here (schedule : list bool) : checks_first_from schedule 2 2 = true.
Proof. destruct schedule; reflexivity. Qed.

(** A request is refused only after the other has inserted. *)
Lemma advance_reachable (who : bool) (st : Standing) :
  reachable st -> reachable (advance who st).
Proof.
  destruct st as [n1 n2 r1 r2]. unfold reachable, advance.
  cbn [ops1 ops2 refused1 refused2].
  intros [H1 H2]. destruct who; cbn [ops1 ops2 refused1 refused2].
  - destruct (Nat.eqb_spec n1 1) as [-> | N].
    + split.
      * intros H. apply andb_true_iff in H. destruct H as [H3 Hr].
        apply Nat.leb_le in H3. apply negb_true_iff in Hr.
        repeat split; try lia; assumption.
      * intros H. specialize (H2 H). repeat split; try lia; tauto.
    + split; intros H; [ specialize (H1 H) | specialize (H2 H) ];
        repeat split; try lia; tauto.
  - destruct (Nat.eqb_spec n2 1) as [-> | N].
    + split.
      * intros H. specialize (H1 H). repeat split; try lia; tauto.
      * intros H. apply andb_true_iff in H. destruct H as [H3 Hr].
        apply Nat.leb_le in H3. apply negb_true_iff in Hr.
        repeat split; try lia; assumption.
    + split; intros H; [ specialize (H1 H) | specialize (H2 H) ];
        repeat split; try lia; tauto.
Qed.

Lemma advance_all_reachable (schedule : list bool) :
  forall st, reachable st -> reachable (advance_all schedule st).
Proof.
  induction schedule as [ | who schedule IH]; intros st H; [ exact H | ].
  cbn [advance_all]. apply IH. now apply advance_reachable.
Qed.

Lemma advance_all_ops (schedule : list bool) :
  forall st,
    ops1 (advance_all schedule st) = (ops1 st + count_occ bool_dec schedule true)%nat
    /\ ops2 (advance_all schedule st) = (ops2 st + count_occ bool_dec schedule false)%nat.
Proof.
  induction schedule as [ | who schedule IH]; intros st; cbn [advance_all count_occ].
  - lia.
  - destruct (IH (advance who st)) as [E1 E2]. rewrite E1, E2.
    destruct who; cbn [advance ops1 ops2].
    + destruct (bool_dec true true) as [ _ | N ]; [ | now elim N ].
      destruct (bool_dec true false); [ discriminate | ]. lia.
    + destruct (bool_dec false false) as [ _ | N ]; [ | now elim N ].
      destruct (bool_dec false true); [ discriminate | ]. lia.
Qed.

(** Neither request is refused in the end exactly when both conflict checks
    came before either insert. *)
Lemma free_iff_checks_first (schedule : list bool) :
  forall st,
    reachable st ->
    (both_checked_free (advance_all schedule st)
     <-> both_checked_free st
         \/ checks_first_from schedule (ops1 st) (ops2 st) = true).
Proof.
  induction schedule as [ | who schedule IH]; intros st Hr.
  - cbn [advance_all checks_first_from]. rewrite orb_false_r, andb_true_iff, !Nat.eqb_eq.
    destruct st as [n1 n2 r1 r2]. unfold both_checked_free, reachable in *. cbn in *.
    destruct r1, r2; intuition (try lia; try discriminate).
  - cbn [advance_all]. rewrite (IH (advance who st) (advance_reachable who st Hr)).
    cbn [checks_first_from]. rewrite orb_true_iff, andb_true_iff, !Nat.eqb_eq.
    destruct st as [n1 n2 r1 r2]. unfold both_checked_free, reachable in *.
    destruct who; cbn [advance ops1 ops2 refused1 refused2] in *.
    + destruct (Nat.eqb_spec n1 1) as [-> | N].
      * destruct (Nat.eq_dec n2 2) as [-> | N2].
        -- rewrite checks_first_here. destruct r2; intuition (try lia; try discriminate).
        -- destruct (Nat.leb_spec 3 n2); destruct r1, r2; cbn [andb negb];
             intuition (try lia; try discriminate).
      * destruct r1, r2; intuition (try lia; try discriminate).
    + destruct (Nat.eqb_spec n2 1) as [-> | N].
      * destruct (Nat.eq_dec n1 2) as [-> | N1].
        -- rewrite checks_first_here. destruct r1; intuition (try lia; try discriminate).
        -- destruct (Nat.leb_spec 3 n1); destruct r1, r2; cbn [andb negb];
             intuition (try lia; try discriminate).
      * destruct r1, r2; intuition (try lia; try discriminate).
Qed.


Lemma has_conflict_app (l1 l2 : list (Stored Booking)) (room : string) (start stop : date) :
  has_conflict (l1 ++ l2) room start stop
  = has_conflict l1 room start stop || has_conflict l2 room start stop.
Proof. apply existsb_app. Qed.

(** One store operation of a request that stands after [n] of them. *)
Lemma after_ops_step (b : Booking) (n : nat) (refused : bool) (p : Prog string)
  (now : Database) :
  (exists oid, ObjectId_of_str (room_id b) = Some oid /\ room_known now oid = true) ->
  after_ops b n refused p ->
  after_ops b (S n)
    (if (n =? 1)%nat
     then has_conflict (bookings now) (room_id b) (check_in b) (check_out b)
     else refused)
    (fst (step p now))
  /\ rooms (snd (step p now)) = rooms now
  /\ bookings (snd (step p now))
     = bookings now
       ++ (if (n =? 2)%nat && negb refused
           then [Build_Stored {| binary := next_oid now |} b] else []).
Proof.
  intros (oid & Ho & Hk) H.
  destruct n as [ | [ | [ | n ] ] ]; cbn [after_ops Nat.eqb andb] in *.
  - subst p. rewrite step_create_booking, Ho, Hk. cbn [fst snd].
    rewrite app_nil_r. auto.
  - subst p. rewrite step_check_conflict. cbn [fst snd]. rewrite app_nil_r.
    destruct (has_conflict (bookings now) (room_id b) (check_in b) (check_out b)); auto.
  - destruct refused; subst p.
    + cbn [step fst snd negb]. rewrite app_nil_r. auto.
    + rewrite step_insert_booking. cbn [fst snd negb rooms bookings]. eauto.
  - destruct refused.
    + subst p. cbn [step fst snd]. rewrite app_nil_r. auto.
    + destruct H as [booking_id ->]. cbn [step fst snd]. rewrite app_nil_r. eauto.
Qed.

Section Two_requests.

Variable db : Database.
Variables b1 b2 : Booking.
Hypothesis Hroom : room_exists db (room_id b1).
Hypothesis Hsame : room_id b1 = room_id b2.
Hypothesis Hstatus1 : status b1 <> "cancelled".
Hypothesis Hstatus2 : status b2 <> "cancelled".
Hypothesis Hov : overlaps (check_in b1) (check_out b1) (check_in b2) (check_out b2) = true.
Hypothesis Hfree1 :
  has_conflict (bookings db) (room_id b1) (check_in b1) (check_out b1) = false.
Hypothesis Hfree2 :
  has_conflict (bookings db) (room_id b2) (check_in b2) (check_out b2) = false.

(** The room of the two requests stays in the catalog. *)
Lemma room_stays_known (now : Database) :
  rooms now = rooms db ->
  exists oid, ObjectId_of_str (room_id b1) = Some oid /\ room_known now oid = true.
Proof.
  intros Hr. destruct Hroom as (oid & r & Ho & Hin & Hid). exists oid. split; [ exact Ho | ].
  rewrite (room_known_same db now oid Hr). subst oid. now apply room_known_in.
Qed.

Lemma first_blocks_second (oid : ObjectId) :
  has_conflict [Build_Stored oid b1] (room_id b2) (check_in b2) (check_out b2) = true.
Proof.
  apply has_conflict_iff. exists (Build_Stored oid b1).
  repeat split; [ now left | exact Hsame | exact Hstatus1 | exact Hov ].
Qed.

Lemma second_blocks_first (oid : ObjectId) :
  has_conflict [Build_Stored oid b2] (room_id b1) (check_in b1) (check_out b1) = true.
Proof.
  apply has_conflict_iff. exists (Build_Stored oid b2).
  repeat split; [ now left | now symmetry | exact Hstatus2 | ].
  rewrite overlaps_sym. exact Hov.
Qed.

Lemma added_one (added : list (Stored Booking)) (b : Booking) :
  map doc added = [b] -> exists oid, added = [Build_Stored oid b].
Proof.
  destruct added as [ | [oid d] [ | y added ] ]; cbn; intros E; try discriminate.
  injection E as ->. now exists oid.
Qed.

(** The conflict check of a request finds a booking exactly when the other
    request has inserted its own. *)
Lemma first_checks (st : Standing) (added : list (Stored Booking)) :
  ops1 st = 1%nat ->
  added_by b1 b2 st (map doc added) ->
  has_conflict (bookings db ++ added) (room_id b1) (check_in b1) (check_out b1)
  = (3 <=? ops2 st)%nat && negb (refused2 st).
Proof.
  intros E. unfold added_by. rewrite E.
  change ((3 <=? 1)%nat) with false. cbn [andb].
  rewrite has_conflict_app, Hfree1. cbn [orb].
  destruct ((3 <=? ops2 st)%nat && negb (refused2 st)); intros H.
  - apply added_one in H. destruct H as [oid ->]. apply second_blocks_first.
  - apply map_eq_nil in H. now subst added.
Qed.

Lemma second_checks (st : Standing) (added : list (Stored Booking)) :
  ops2 st = 1%nat ->
  added_by b1 b2 st (map doc added) ->
  has_conflict (bookings db ++ added) (room_id b2) (check_in b2) (check_out b2)
  = (3 <=? ops1 st)%nat && negb (refused1 st).
Proof.
  intros E. unfold added_by. rewrite E.
  change ((3 <=? 1)%nat) with false. cbn [andb].
  rewrite has_conflict_app, Hfree2. cbn [orb].
  destruct ((3 <=? ops1 st)%nat && negb (refused1 st)); intros H.
  - apply added_one in H. destruct H as [oid ->]. apply first_blocks_second.
  - apply map_eq_nil in H. now subst added.
Qed.

(** One store operation of either request keeps the two where [advance]
    says they stand. *)
Lemma in_flight_first (st : Standing) (p1 p2 : Prog string) (now : Database) :
  in_flight db b1 b2 st p1 p2 now ->
  in_flight db b1 b2 (advance true st) (fst (step p1 now)) p2 (snd (step p1 now)).
Proof.
  intros (Hr & H1 & H2 & Hrooms & added & Hadded & Hby).
  destruct (after_ops_step b1 (ops1 st) (refused1 st) p1 now (room_stays_known now Hrooms) H1)
    as (K1 & K2 & K3).
  pose proof (advance_reachable true st Hr) as Hr'.
  unfold in_flight. split; [ exact Hr' | ].
  destruct st as [n1 n2 r1 r2]. cbn [advance ops1 ops2 refused1 refused2] in *.
  split; [ | split; [ exact H2 | split; [ congruence | ] ] ].
  - destruct (Nat.eqb_spec n1 1) as [-> | N]; [ | exact K1 ].
    rewrite Hadded in K1.
    rewrite (first_checks {| ops1 := 1; ops2 := n2; refused1 := r1; refused2 := r2 |}
               added eq_refl Hby) in K1. exact K1.
  - rewrite K3, Hadded, <- app_assoc. eexists. split; [ reflexivity | ].
    unfold added_by in *. cbn [ops1 ops2 refused1 refused2] in *.
    set (other := (3 <=? n2)%nat && negb r2) in *.
    destruct n1 as [ | [ | [ | n1 ] ] ]; cbn [Nat.eqb Nat.leb andb negb] in *.
    + rewrite app_nil_r. exact Hby.
    + rewrite app_nil_r. exact Hby.
    + destruct r1; cbn [negb andb] in *.
      * rewrite app_nil_r. exact Hby.
      * rewrite map_app. cbn [map doc].
        destruct other; rewrite Hby; cbn [app]; auto.
    + rewrite app_nil_r. exact Hby.
Qed.

Lemma in_flight_second (st : Standing) (p1 p2 : Prog string) (now : Database) :
  in_flight db b1 b2 st p1 p2 now ->
  in_flight db b1 b2 (advance false st) p1 (fst (step p2 now)) (snd (step p2 now)).
Proof.
  intros (Hr & H1 & H2 & Hrooms & added & Hadded & Hby).
  assert (Hknown : exists oid, ObjectId_of_str (room_id b2) = Some oid
                               /\ room_known now oid = true).
  { rewrite <- Hsame. now apply room_stays_known. }
  destruct (after_ops_step b2 (ops2 st) (refused2 st) p2 now Hknown H2) as (K1 & K2 & K3).
  pose proof (advance_reachable false st Hr) as Hr'.
  unfold in_flight. split; [ exact Hr' | ].
  destruct st as [n1 n2 r1 r2]. cbn [advance ops1 ops2 refused1 refused2] in *.
  split; [ exact H1 | split; [ | split; [ congruence | ] ] ].
  - destruct (Nat.eqb_spec n2 1) as [-> | N]; [ | exact K1 ].
    rewrite Hadded in K1.
    rewrite (second_checks {| ops1 := n1; ops2 := 1; refused1 := r1; refused2 := r2 |}
               added eq_refl Hby) in K1. exact K1.
  - rewrite K3, Hadded, <- app_assoc. eexists. split; [ reflexivity | ].
    unfold added_by in *. cbn [ops1 ops2 refused1 refused2] in *.
    set (other := (3 <=? n1)%nat && negb r1) in *.
    destruct n2 as [ | [ | [ | n2 ] ] ]; cbn [Nat.eqb Nat.leb andb negb] in *.
    + rewrite app_nil_r. exact Hby.
    + rewrite app_nil_r. exact Hby.
    + destruct r2; cbn [negb andb] in *.
      * rewrite app_nil_r. exact Hby.
      * rewrite map_app. cbn [map doc].
        destruct other; rewrite Hby; cbn [app]; auto.
    + rewrite app_nil_r. exact Hby.
Qed.

Lemma in_flight_all (schedule : list bool) :
  forall (st : Standing) (p1 p2 : Prog string) (now : Database),
    in_flight db b1 b2 st p1 p2 now ->
    in_flight db b1 b2 (advance_all schedule st)
      (fst (fst (interleave schedule p1 p2 now)))
      (snd (fst (interleave schedule p1 p2 now)))
      (snd (interleave schedule p1 p2 now)).
Proof.
  induction schedule as [ | who schedule IH]; intros st p1 p2 now H; [ exact H | ].
  cbn [advance_all interleave]. destruct who.
  - apply in_flight_first in H. destruct (step p1 now) as [p1' now']. now apply IH.
  - apply in_flight_second in H. destruct (step p2 now) as [p2' now']. now apply IH.
Qed.

End Two_requests.

Lemma ordered_pairs_last_two {A : Type} (R : A -> A -> Prop) (l : list A) (x y : A) :
  ForallOrdPairs R (l ++ [x; y]) -> R x y.
Proof.
  induction l as [ | a l IH]; cbn [app]; intros H.
  - inversion H as [ | a' l' Ha _ ]; subst. inversion Ha; subst. assumption.
  - inversion H; subst. now apply IH.
Qed.

Lemma double_booked_intro (x y : Booking) :
  room_id x = room_id y -> status x <> "cancelled" -> status y <> "cancelled" ->
  overlaps (check_in x) (check_out x) (check_in y) (check_out y) = true ->
  double_booked x y = true.
Proof.
  intros Hs Hx Hy Ho. unfold double_booked, blocks, cancelled.
  rewrite Hs, String.eqb_refl, Ho.
  destruct (String.eqb_spec (status x) "cancelled") as [E | _]; [ now elim Hx | ].
  destruct (String.eqb_spec (status y) "cancelled") as [E | _]; [ now elim Hy | ].
  reflexivity.
Qed.

Lemma added_two (added : list (Stored Booking)) (x y : Booking) :
  map doc added = [x; y] ->
  exists ox oy, added = [Build_Stored ox x; Build_Stored oy y].
Proof.
  destruct added as [ | [ox dx] [ | [oy dy] [ | z added ] ] ]; cbn; intros E;
    try discriminate.
  injection E as -> ->. now exists ox, oy.
Qed.

(** C6, as the code has it. Two requests for one room id with overlapping
    intervals, neither cancelled, on a ledger that blocks neither, their
    store operations interleaved by any schedule that lets both finish.
    When both conflict checks come before either insert, both requests
    are served, both bookings are appended and the ledger is double
    booked. With every other schedule exactly one request is served, its
    booking alone is appended, and the other fails with [Conflict]. *)
Theorem concurrent_requests_same_room
  (db : Database) (b1 b2 : Booking) (schedule : list bool) :
  room_exists db (room_id b1) ->
  room_id b1 = room_id b2 ->
  status b1 <> "cancelled" ->
  status b2 <> "cancelled" ->
  overlaps (check_in b1) (check_out b1) (check_in b2) (check_out b2) = true ->
  has_conflict (bookings db) (room_id b1) (check_in b1) (check_out b1) = false ->
  has_conflict (bookings db) (room_id b2) (check_in b2) (check_out b2) = false ->
  (3 <= count_occ bool_dec schedule true)%nat ->
  (3 <= count_occ bool_dec schedule false)%nat ->
  (checks_come_first schedule ->
     exists id1 id2 now added,
       interleave schedule (create_booking b1) (create_booking b2) db
       = (Return id1, Return id2, now)
       /\ bookings now = bookings db ++ added
       /\ (map doc added = [b1; b2] \/ map doc added = [b2; b1])
       /\ ~ no_double_booking (bookings now))
  /\ (~ checks_come_first schedule ->
     exists booking_id now added,
       bookings now = bookings db ++ added
       /\ ((interleave schedule (create_booking b1) (create_booking b2) db
            = (Return booking_id, Raise Conflict, now)
            /\ map doc added = [b1])
           \/ (interleave schedule (create_booking b1) (create_booking b2) db
               = (Raise Conflict, Return booking_id, now)
               /\ map doc added = [b2]))).
Proof.
  intros Hroom Hsame Hs1 Hs2 Hov Hf1 Hf2 Hc1 Hc2.
  set (st0 := {| ops1 := 0; ops2 := 0; refused1 := false; refused2 := false |}).
  assert (Hr0 : reachable st0) by (split; discriminate).
  assert (H0 : in_flight db b1 b2 st0 (create_booking b1) (create_booking b2) db).
  { split; [ exact Hr0 | ]. repeat split. exists []. now rewrite app_nil_r. }
  pose proof (in_flight_all db b1 b2 Hroom Hsame Hs1 Hs2 Hov Hf1 Hf2 schedule st0 _ _ _ H0)
    as (Hr & H1 & H2 & _ & added & Hadded & Hby).
  pose proof (free_iff_checks_first schedule st0 Hr0) as Hfree.
  destruct (advance_all_ops schedule st0) as [E1 E2].
  destruct (interleave schedule (create_booking b1) (create_booking b2) db)
    as [[q1 q2] now]. cbn [fst snd] in *.
  subst st0. cbn [ops1 ops2 refused1 refused2] in Hfree, E1, E2.
  rewrite <- checks_come_first_iff in Hfree.
  destruct (advance_all schedule _) as [n1 n2 r1 r2].
  unfold both_checked_free, added_by, reachable in *.
  cbn [ops1 ops2 refused1 refused2] in *.
  assert (L1 : (3 <=? n1)%nat = true) by (apply Nat.leb_le; lia).
  assert (L2 : (3 <=? n2)%nat = true) by (apply Nat.leb_le; lia).
  rewrite L1, L2 in Hby. cbn [andb] in Hby.
  destruct n1 as [ | [ | [ | n1 ] ] ]; try lia.
  destruct n2 as [ | [ | [ | n2 ] ] ]; try lia.
  cbn [after_ops] in H1, H2.
  split.
  - intros Hfirst. assert (Hboth : r1 = false /\ r2 = false).
    { destruct Hfree as [_ Hfree]. destruct (Hfree (or_intror Hfirst)) as (_ & _ & ? & ?).
      now split. }
    destruct Hboth as [-> ->]. cbn [negb] in Hby.
    destruct H1 as [id1 ->], H2 as [id2 ->].
    exists id1, id2, now, added. repeat split; [ exact Hadded | exact Hby | ].
    rewrite Hadded. intros Hno. destruct Hby as [Hby | Hby];
      apply added_two in Hby; destruct Hby as (ox & oy & ->);
      apply ordered_pairs_last_two in Hno; cbn [doc] in Hno.
    + rewrite (double_booked_intro b1 b2 Hsame Hs1 Hs2 Hov) in Hno. discriminate.
    + rewrite double_booked_intro in Hno;
        [ discriminate | now symmetry | exact Hs2 | exact Hs1 | ].
      rewrite overlaps_sym. exact Hov.
  - intros Hnot. destruct Hr as [Hr1 Hr2].
    destruct r1, r2; cbn [negb] in Hby.
    + destruct (Hr1 eq_refl) as (_ & _ & ?). discriminate.
    + destruct H2 as [booking_id ->]. subst q1.
      exists booking_id, now, added. split; [ exact Hadded | right; now split ].
    + destruct H1 as [booking_id ->]. subst q2.
      exists booking_id, now, added. split; [ exact Hadded | left; now split ].
    + elim Hnot. destruct Hfree as [Hfree _].
      destruct Hfree as [ (Hle & _) | Hc ]; [ repeat split; lia | lia | exact Hc ].
Qed.

(** The requests of scenario 1 for room A: with their store operations
    alternating both are served, and with the first request inserting
    before the conflict check of the second one of them is refused. *)
Lemma concurrent_requests_same_room_witness :
  (exists id1 id2 now added,
     interleave alternating (create_booking booking_1) (create_booking booking_1b) db_A
     = (Return id1, Return id2, now)
     /\ bookings now = bookings db_A ++ added
     /\ (map doc added = [booking_1; booking_1b]
         \/ map doc added = [booking_1b; booking_1])
     /\ ~ no_double_booking (bookings now))
  /\ (exists booking_id now added,
        bookings now = bookings db_A ++ added
        /\ ((interleave [true; false; true; true; false; false]
               (create_booking booking_1) (create_booking booking_1b) db_A
             = (Return booking_id, Raise Conflict, now)
             /\ map doc added = [booking_1])
            \/ (interleave [true; false; true; true; false; false]
                  (create_booking booking_1) (create_booking booking_1b) db_A
                = (Raise Conflict, Return booking_id, now)
                /\ map doc added = [booking_1b]))).
Proof.
  assert (Hroom : room_exists db_A (room_id booking_1)).
  { exists {| binary := 1 |}, (Build_Stored {| binary := 1 |} room_A).
    repeat split. now left. }
  split.
  - refine (proj1 (concurrent_requests_same_room db_A booking_1 booking_1b alternating
                     Hroom _ _ _ _ _ _ _ _) _);
      try reflexivity; try discriminate; try (vm_compute; lia).
    exists [true; false; true; false], [true; false]. repeat split.
  - refine (proj2 (concurrent_requests_same_room db_A booking_1 booking_1b
                     [true; false; true; true; false; false]
                     Hroom _ _ _ _ _ _ _ _) _);
      try reflexivity; try discriminate; try (vm_compute; lia).
    intros H. apply checks_come_first_iff in H. discriminate H.
Defined.
